(** * EN New Sustainers: the month filter of [main.py], verified

    A shallow embedding of [main.py]: the two date helpers
    ([reformat_date_string], [parse_date_column]), the pandas pipeline of
    [process_csv], the writer [save_filtered_csv] and the command-line
    driver [run_cli].

    Python strings are modelled by [string]: a sequence of code points
    below 256.  What pandas does on its own (reading the file, the lenient
    date parser, the sorting permutation, the text of its [KeyError]) is a
    parameter of the development; everything [main.py] does itself is a
    definition.  Where a run depends on the order in which pandas leaves
    equal dates, [Numpy] gives the sort it uses. *)

From Stdlib Require Import String Ascii List ZArith Lia Bool DecimalString.
From Stdlib Require Import Sorting.Permutation Sorting.Sorted Sorting.Mergesort Orders.
Import ListNotations.

Local Open Scope string_scope.
Local Open Scope Z_scope.

(** ** Python string primitives *)

Module Py.

(** [str.isspace] on the code points below 256: TAB..CR, FS..US, SPACE,
    NEL and NBSP. *)
Definition is_space (c : ascii) : bool :=
  let n := N_of_ascii c in
  ((9 <=? n) && (n <=? 13) || (28 <=? n) && (n <=? 32)
   || (n =? 133) || (n =? 160))%N.

Definition is_digit (c : ascii) : bool :=
  let n := N_of_ascii c in ((48 <=? n) && (n <=? 57))%N.

Definition digit_value (c : ascii) : Z := Z.of_N (N_of_ascii c) - 48.

(** [s.lstrip()] *)
Fixpoint lstrip (s : string) : string :=
  match s with
  | String c r => if is_space c then lstrip r else s
  | EmptyString => EmptyString
  end.

(** [s.rstrip()] *)
Fixpoint rstrip (s : string) : string :=
  match s with
  | String c r =>
      match rstrip r with
      | EmptyString => if is_space c then EmptyString else String c EmptyString
      | r' => String c r'
      end
  | EmptyString => EmptyString
  end.

(** [s.strip()] *)
Definition strip (s : string) : string := rstrip (lstrip s).

(** [s.split(sep)] for a separator of one character: empty fields are
    kept, and the result is never empty. *)
Fixpoint split (sep : ascii) (s : string) : list string :=
  match s with
  | EmptyString => [EmptyString]
  | String c r =>
      if Ascii.eqb c sep then EmptyString :: split sep r
      else match split sep r with
           | f :: fs => String c f :: fs
           | [] => [String c EmptyString]
           end
  end.

(** [sep.join(fields)] *)
Fixpoint join (sep : string) (fields : list string) : string :=
  match fields with
  | [] => EmptyString
  | [f] => f
  | f :: fs => f ++ sep ++ join sep fs
  end.

(** [s.count(c)] for one character. *)
Fixpoint count (c : ascii) (s : string) : nat :=
  match s with
  | EmptyString => 0%nat
  | String a r => if Ascii.eqb a c then S (count c r) else count c r
  end.

(** The string of [n] characters [c] ([c * n]). *)
Fixpoint replicate (n : nat) (c : ascii) : string :=
  match n with
  | O => EmptyString
  | S k => String c (replicate k c)
  end.

(** [s.zfill(width)]: zeros on the left up to [width]; a leading sign
    stays in front of the padding. *)
Definition zfill (width : nat) (s : string) : string :=
  let n := String.length s in
  if (width <=? n)%nat then s
  else
    let pad := replicate (width - n) "0" in
    match s with
    | String c r =>
        if Ascii.eqb c "+" || Ascii.eqb c "-" then String c (pad ++ r)
        else pad ++ s
    | EmptyString => pad
    end.

(** The digits of a decimal literal: groups of digits separated by single
    underscores.  [seen] tells whether the previous character was a digit;
    the result is the value and the number of digits. *)
Fixpoint digits (acc : Z) (n : nat) (seen : bool) (s : string)
  : option (Z * nat) :=
  match s with
  | EmptyString => if seen then Some (acc, n) else None
  | String c r =>
      if is_digit c then digits (10 * acc + digit_value c) (S n) true r
      else if Ascii.eqb c "_" then
             if seen then digits acc n false r else None
      else None
  end.

(** [sys.get_int_max_str_digits()], at its default. *)
Definition int_max_str_digits : nat := 4300.

(** The blanks [int] skips around a number: TAB..CR, SPACE, NEL and NBSP.
    The separators FS..US, which [str.strip] removes, are not among them:
    [int] leaves every code point below 127 as it is and then skips only
    the blanks of the C locale. *)
Definition is_int_space (c : ascii) : bool :=
  let n := N_of_ascii c in
  ((9 <=? n) && (n <=? 13) || (n =? 32) || (n =? 133) || (n =? 160))%N.

Fixpoint int_lstrip (s : string) : string :=
  match s with
  | String c r => if is_int_space c then int_lstrip r else s
  | EmptyString => EmptyString
  end.

Fixpoint int_rstrip (s : string) : string :=
  match s with
  | String c r =>
      match int_rstrip r with
      | EmptyString =>
          if is_int_space c then EmptyString else String c EmptyString
      | r' => String c r'
      end
  | EmptyString => EmptyString
  end.

(** [int(s)] for a string: [None] stands for [ValueError]. *)
Definition int (s : string) : option Z :=
  let t := int_rstrip (int_lstrip s) in
  let '(neg, body) :=
    match t with
    | String c r =>
        if Ascii.eqb c "-" then (true, r)
        else if Ascii.eqb c "+" then (false, r)
        else (false, t)
    | EmptyString => (false, t)
    end in
  match digits 0 0 false body with
  | Some (v, n) =>
      if (int_max_str_digits <? n)%nat then None
      else Some (if neg then - v else v)
  | None => None
  end.

(** [str(z)] for an integer. *)
Definition str_int (z : Z) : string := NilZero.string_of_int (Z.to_int z).

(** [os.path.join(a, b)] on a POSIX system. *)
Definition path_join (a b : string) : string :=
  match b with
  | String "/" _ => b
  | _ =>
      match a with
      | EmptyString => b
      | _ =>
          match String.get (String.length a - 1) a with
          | Some "/"%char => a ++ b
          | _ => a ++ "/" ++ b
          end
      end
  end.

(** [s.isdecimal()]: not empty, and decimal digits only. *)
Fixpoint all_digits (s : string) : bool :=
  match s with
  | EmptyString => true
  | String c r => is_digit c && all_digits r
  end.

Definition isdecimal (s : string) : bool :=
  match s with
  | EmptyString => false
  | _ => all_digits s
  end.

End Py.

(** ** Timestamps

    A pandas [Timestamp] is a count of nanoseconds since 1970-01-01; its
    calendar fields are those of the proleptic Gregorian calendar. *)

Module Calendar.

Definition ns_per_second : Z := 1000000000.
Definition ns_per_day : Z := 86400 * ns_per_second.

(** Year, month and day of the day number [z] (days since 1970-01-01). *)
Definition civil_from_days (z : Z) : Z * Z * Z :=
  let z := z + 719468 in
  let era := z / 146097 in
  let doe := z - era * 146097 in
  let yoe := (doe - doe / 1460 + doe / 36524 - doe / 146096) / 365 in
  let doy := doe - (365 * yoe + yoe / 4 - yoe / 100) in
  let mp := (5 * doy + 2) / 153 in
  let d := doy - (153 * mp + 2) / 5 + 1 in
  let m := if mp <? 10 then mp + 3 else mp - 9 in
  let y := yoe + era * 400 in
  (if m <=? 2 then y + 1 else y, m, d).

(** The day number of a calendar date. *)
Definition days_from_civil (y m d : Z) : Z :=
  let y := if m <=? 2 then y - 1 else y in
  let era := y / 400 in
  let yoe := y - era * 400 in
  let doy := (153 * (if 2 <? m then m - 3 else m + 9) + 2) / 5 + d - 1 in
  let doe := yoe * 365 + yoe / 4 - yoe / 100 + doy in
  era * 146097 + doe - 719468.

(** Midnight of a calendar date, in nanoseconds. *)
Definition midnight (y m d : Z) : Z := days_from_civil y m d * ns_per_day.

(** [Timestamp.month] *)
Definition month (ns : Z) : Z :=
  let '(_, m, _) := civil_from_days (ns / ns_per_day) in m.

Definition two (z : Z) : string := Py.zfill 2 (Py.str_int z).

(** [str(Timestamp)]: the ISO form with a space, and the fraction of the
    second in six or nine digits when it is not zero. *)
Definition isoformat (ns : Z) : string :=
  let '(y, m, d) := civil_from_days (ns / ns_per_day) in
  let tod := ns mod ns_per_day in
  let secs := tod / ns_per_second in
  let frac := tod mod ns_per_second in
  Py.zfill 4 (Py.str_int y) ++ "-" ++ two m ++ "-" ++ two d ++ " "
  ++ two (secs / 3600) ++ ":" ++ two (secs / 60 mod 60) ++ ":"
  ++ two (secs mod 60)
  ++ (if frac =? 0 then ""
      else if frac mod 1000 =? 0 then "." ++ Py.zfill 6 (Py.str_int (frac / 1000))
      else "." ++ Py.zfill 9 (Py.str_int frac)).

End Calendar.

(** ** Cells

    The values a frame holds: text, integers, the missing-value marker
    [NaN], timestamps and the missing timestamp [NaT].  Floating-point
    numbers other than [NaN] are outside the model. *)

Inductive cell : Type :=
| Str (s : string)
| Int (z : Z)
| NaN
| Timestamp (ns : Z)
| NaT.

(** [str(d)] *)
Definition py_str (d : cell) : string :=
  match d with
  | Str s => s
  | Int z => Py.str_int z
  | NaN => "nan"
  | Timestamp ns => Calendar.isoformat ns
  | NaT => "NaT"
  end.

(** [pd.isna(d)] on a scalar. *)
Definition isna (d : cell) : bool :=
  match d with
  | NaN | NaT => true
  | _ => false
  end.

(** ** The date helpers of [main.py] *)

(** [reformat_date_string(d)].  None of [str], [strip], [split] and
    [zfill] raises, so the [except] branch is never entered and the
    function is total: it falls through to [return ""] exactly when the
    field count is not three. *)
Definition reformat_date_string (d : cell) : string :=
  let parts := Py.split "/" (Py.strip (py_str d)) in
  match parts with
  | [day; month; year] => Py.zfill 2 month ++ "/" ++ Py.zfill 2 day ++ "/" ++ year
  | _ => ""
  end.

(** [parse_date_column(date_str)].  [None] is Python's [None]; the
    [ValueError] of [int] is caught by the bare [except], which returns
    [None] too.  Only [month] is converted. *)
Definition parse_date_column (date_str : cell) : option Z :=
  let date_str := Py.strip (py_str date_str) in
  if isna (Str date_str) || String.eqb date_str "nan" then None
  else
    let parts := Py.split "/" date_str in
    match parts with
    | [day; month; year] => Py.int month
    | _ => None
    end.


(** ** Exceptions and results *)

(** The exceptions the program meets, each with the text [str(e)] gives. *)
Inductive exn : Type :=
| ValueError (msg : string)
| KeyError (msg : string)
| EOFError (msg : string)
| Exception (msg : string)
| OtherError (msg : string).

(** [str(e)] *)
Definition str_exn (e : exn) : string :=
  match e with
  | ValueError msg | KeyError msg | EOFError msg | Exception msg
  | OtherError msg => msg
  end.

Inductive result (A : Type) : Type :=
| Ok (a : A)
| Raise (e : exn).

Arguments Ok {A} a.
Arguments Raise {A} e.

Definition bind {A B : Type} (r : result A) (k : A -> result B) : result B :=
  match r with
  | Ok a => k a
  | Raise e => Raise e
  end.

Notation "x <- r ;; k" := (bind r (fun x => k))
  (at level 61, r at next level, right associativity).

(** ** Data frames

    A frame is column-major, as in pandas: the row labels and, for each
    column label, the cells of that column, one per row.  [read_csv] makes
    the labels of a header distinct, so a label names one column. *)

Record DataFrame : Type := {
  index : list nat;
  data : list (string * list cell)
}.

(** [df.columns] *)
Definition columns (df : DataFrame) : list string := map fst (data df).

(** [len(df)] *)
Definition len (df : DataFrame) : nat := length (index df).

(** What the CSV reader hands over: the header and the records. *)
Record Table : Type := {
  header : list string;
  records : list (list cell)
}.

(** The frame of a table, with the default [RangeIndex]; a record shorter
    than the header is filled with [NaN]. *)
Definition frame_of_table (t : Table) : DataFrame :=
  {| index := seq 0 (length (records t));
     data := map (fun j => (nth j (header t) EmptyString,
                            map (fun r => nth j r NaN) (records t)))
                 (seq 0 (length (header t))) |}.

Fixpoint lookup (name : string) (d : list (string * list cell))
  : option (list cell) :=
  match d with
  | [] => None
  | (k, c) :: r => if String.eqb k name then Some c else lookup name r
  end.

(** [name in df.columns] *)
Definition has_column (df : DataFrame) (name : string) : bool :=
  existsb (String.eqb name) (columns df).

(** [df[name]]: a missing label raises [KeyError(name)], whose text is the
    quoted label. *)
Definition getitem (df : DataFrame) (name : string) : result (list cell) :=
  match lookup name (data df) with
  | Some c => Ok c
  | None => Raise (KeyError ("'" ++ name ++ "'"))
  end.

Fixpoint assign (name : string) (vals : list cell)
  (d : list (string * list cell)) : list (string * list cell) :=
  match d with
  | [] => [(name, vals)]
  | (k, c) :: r =>
      if String.eqb k name then (k, vals) :: r
      else (k, c) :: assign name vals r
  end.

(** [df[name] = vals]: replaces the column in place, or appends it. *)
Definition setitem (df : DataFrame) (name : string) (vals : list cell)
  : DataFrame :=
  {| index := index df; data := assign name vals (data df) |}.

(** The entries of [l] at the positions where [mask] is true. *)
Fixpoint compress {A : Type} (mask : list bool) (l : list A) : list A :=
  match mask, l with
  | b :: mask', x :: l' =>
      if b then x :: compress mask' l' else compress mask' l'
  | _, _ => []
  end.

(** [df[mask]] for a boolean series. *)
Definition loc_mask (df : DataFrame) (mask : list bool) : DataFrame :=
  {| index := compress mask (index df);
     data := map (fun kc => (fst kc, compress mask (snd kc))) (data df) |}.

(** [df.take(indexer)]: the rows at the given positions, in that order. *)
Definition take (df : DataFrame) (indexer : list nat) : DataFrame :=
  {| index := map (fun i => nth i (index df) 0%nat) indexer;
     data := map (fun kc => (fst kc, map (fun i => nth i (snd kc) NaN) indexer))
                 (data df) |}.

(** [df[names]] for a list of labels: the named columns in the order of
    the list; the text of the [KeyError] for missing labels is pandas's
    own, [key_error_text]. *)
Definition select (key_error_text : list string -> string)
  (df : DataFrame) (names : list string) : result DataFrame :=
  match filter (fun n => negb (has_column df n)) names with
  | [] =>
      Ok {| index := index df;
            data := map (fun n => (n, match lookup n (data df) with
                                      | Some c => c
                                      | None => []
                                      end)) names |}
  | missing => Raise (KeyError (key_error_text missing))
  end.

Fixpoint rename_label (mapping : list (string * string)) (k : string) : string :=
  match mapping with
  | [] => k
  | (old, new) :: r => if String.eqb old k then new else rename_label r k
  end.

(** [df.rename(columns=mapping)] *)
Definition rename (df : DataFrame) (mapping : list (string * string))
  : DataFrame :=
  {| index := index df;
     data := map (fun kc => (rename_label mapping (fst kc), snd kc)) (data df) |}.

(** A parsed date as a cell of a [datetime64] column. *)
Definition date_cell (d : option Z) : cell :=
  match d with
  | Some ns => Timestamp ns
  | None => NaT
  end.

(** [series.dt.month] on a column of dates, cell by cell: the month of a
    timestamp, [NaN] for [NaT]. *)
Definition dt_month (c : cell) : cell :=
  match c with
  | Timestamp ns => Int (Calendar.month ns)
  | _ => NaN
  end.

(** [series == target], cell by cell: [NaN] equals nothing. *)
Definition eq_int (target : Z) (c : cell) : bool :=
  match c with
  | Int z => z =? target
  | _ => false
  end.

Definition timestamp_value (c : cell) : option Z :=
  match c with
  | Timestamp ns => Some ns
  | _ => None
  end.

(** [df.sort_values(by=name)]: the rows with a timestamp come first, in
    the order [argsort] gives for their values, the rows without one last
    ([na_position='last']). *)
Definition sort_values (argsort : list Z -> list nat)
  (df : DataFrame) (name : string) : result DataFrame :=
  keys <- getitem df name ;;
  let idx := seq 0 (length keys) in
  let non_nan_idx :=
    filter (fun i => negb (isna (nth i keys NaN))) idx in
  let nan_idx := filter (fun i => isna (nth i keys NaN)) idx in
  let non_nans :=
    map (fun i => match timestamp_value (nth i keys NaN) with
                  | Some ns => ns
                  | None => 0
                  end) non_nan_idx in
  let indexer :=
    (map (fun j => nth j non_nan_idx 0%nat) (argsort non_nans) ++ nan_idx)%list in
  Ok (take df indexer).

(** ** The constants of [main.py] *)

Definition MONTH_NAMES : list (Z * string) :=
  [(1, "January"); (2, "February"); (3, "March"); (4, "April");
   (5, "May"); (6, "June"); (7, "July"); (8, "August");
   (9, "September"); (10, "October"); (11, "November"); (12, "December")].

Definition COLUMNS_TO_KEEP : list string :=
  ["Supporter ID"; "Supporter Email"; "Campaign ID"; "Organization or Company";
   "First Name"; "Last Name"; "Partner Name"; "Address 1"; "City"; "State";
   "ZIP Code"; "Raisers Edge Constituent ID"; "Assigned Region";
   "Campaign Data 4"; "Campaign Data 16"].

Definition COLUMNS_TO_RENAME : list (string * string) :=
  [("Campaign Data 4", "Donation Amount");
   ("Campaign Data 16", "Monthly Donation Start Date")].

(** [MONTH_NAMES[target_month]]: [None] stands for the [KeyError]. *)
Fixpoint month_name_in (names : list (Z * string)) (target_month : Z)
  : option string :=
  match names with
  | [] => None
  | (k, v) :: r => if k =? target_month then Some v else month_name_in r target_month
  end.

Definition month_name (target_month : Z) : option string :=
  month_name_in MONTH_NAMES target_month.

(** The line feed, and a line feed in front of a text. *)
Definition LF : ascii := ascii_of_nat 10.
Definition nl (s : string) : string := String LF s.

(** ** Effects of the command-line run

    The run is a function of the lines waiting on standard input; it leaves
    a trace of what it printed and of the file operations it made. *)

Inductive event : Type :=
| Print (line : string)
| Input (prompt : string)
| PathExists (path : string)
| ReadCsv (path : string)
| ToCsv (path : string) (df : DataFrame).

Record world : Type := {
  stdin : list string;
  trace : list event
}.

Definition M (A : Type) : Type := world -> result A * world.

Definition ret {A : Type} (a : A) : M A := fun w => (Ok a, w).

Definition raiseM {A : Type} (e : exn) : M A := fun w => (Raise e, w).

Definition bindM {A B : Type} (m : M A) (k : A -> M B) : M B :=
  fun w =>
    match m w with
    | (Ok a, w') => k a w'
    | (Raise e, w') => (Raise e, w')
    end.

Notation "x <~ m ;; k" := (bindM m (fun x => k))
  (at level 61, m at next level, right associativity).
Notation "m ;;; k" := (bindM m (fun _ => k))
  (at level 61, right associativity).

(** [try: body except Exception as e: handler(e)] *)
Definition try_except {A : Type} (body : M A) (handler : exn -> M A) : M A :=
  fun w =>
    match body w with
    | (Ok a, w') => (Ok a, w')
    | (Raise e, w') => handler e w'
    end.

Definition emit (e : event) : M unit :=
  fun w => (Ok tt, {| stdin := stdin w; trace := (trace w ++ [e])%list |}).

Definition lift {A : Type} (r : result A) : M A := fun w => (r, w).

(** [print(line)] *)
Definition print (line : string) : M unit := emit (Print line).

(** [input(prompt)]: the next line of standard input, [EOFError] when
    there is none. *)
Definition input (prompt : string) : M string :=
  fun w =>
    let t := (trace w ++ [Input prompt])%list in
    match stdin w with
    | line :: rest => (Ok line, {| stdin := rest; trace := t |})
    | [] => (Raise (EOFError "EOF when reading a line"),
             {| stdin := []; trace := t |})
    end.

Fixpoint for_each {A : Type} (l : list A) (body : A -> M unit) : M unit :=
  match l with
  | [] => ret tt
  | x :: r => body x ;;; for_each r body
  end.

(** ** The program *)

Section Program.

(** [pd.read_csv] up to the frame: the table of a file, or what it raised. *)
Variable read_csv : string -> result Table.

(** [pd.to_datetime(series, errors='coerce', dayfirst=True)] and the
    [.dt] accessor on what it returns: a date or nothing for every cell of
    the series, or what pandas raises when it refuses the series as a whole
    (dates whose UTC offsets differ). *)
Variable to_datetime : list cell -> result (list (option Z)).

(** The sorting permutation of pandas's default [kind='quicksort']. *)
Variable argsort : list Z -> list nat.

(** The text of pandas's [KeyError] for labels that are not columns. *)
Variable key_error_text : list string -> string.

(** [os.path.exists] *)
Variable path_exists : string -> bool.

(** What [DataFrame.to_csv(path, index=False)] raises, if it does. *)
Variable to_csv : string -> DataFrame -> option exn.

(** [process_csv(csv_file, target_month)] *)
Definition process_csv (csv_file : string) (target_month : Z)
  : result DataFrame :=
  let body :=
    t <- read_csv csv_file ;;
    let df := frame_of_table t in
    if negb (has_column df "Campaign Data 16") then
      Raise (ValueError "Column 'Campaign Data 16' not found in CSV file")
    else
      dates <- getitem df "Campaign Data 16" ;;
      parsed_dates <- to_datetime dates ;;
      let df := setitem df "parsed_date" (map date_cell parsed_dates) in
      parsed <- getitem df "parsed_date" ;;
      let df := setitem df "parsed_month" (map dt_month parsed) in
      months <- getitem df "parsed_month" ;;
      let filtered_df := loc_mask df (map (eq_int target_month) months) in
      filtered_df <- sort_values argsort filtered_df "parsed_date" ;;
      filtered_df <- select key_error_text filtered_df COLUMNS_TO_KEEP ;;
      let filtered_df := rename filtered_df COLUMNS_TO_RENAME in
      starts <- getitem filtered_df "Monthly Donation Start Date" ;;
      Ok (setitem filtered_df "Monthly Donation Start Date"
            (map (fun d => Str (reformat_date_string d)) starts))
  in
  match body with
  | Ok filtered_df => Ok filtered_df
  | Raise e => Raise (Exception ("Error processing CSV: " ++ str_exn e))
  end.

(** [save_filtered_csv(filtered_df, target_month, output_dir)] *)
Definition save_filtered_csv (filtered_df : DataFrame) (target_month : Z)
  (output_dir : string) : M string :=
  match month_name target_month with
  | None => raiseM (KeyError (Py.str_int target_month))
  | Some month_name =>
      let filename := month_name ++ " New EN Monthly Donors.csv" in
      let filepath := Py.path_join output_dir filename in
      emit (ToCsv filepath filtered_df) ;;;
      match to_csv filepath filtered_df with
      | Some e => raiseM e
      | None => ret filepath
      end
  end.

(** The month of [run_cli]: [None] when the function has printed an error
    and returned. *)
Definition cli_month (argv : list string) : M (option Z) :=
  match argv with
  | _ :: _ :: month :: _ =>
      match Py.int month with
      | Some target_month => ret (Some target_month)
      | None =>
          print "Error: Month must be a number between 1-12" ;;; ret None
      end
  | _ =>
      print (nl "Available months:") ;;;
      for_each MONTH_NAMES
        (fun im => print (Py.str_int (fst im) ++ ": " ++ snd im)) ;;;
      line <~ input (nl "Enter month number (1-12): ") ;;
      match Py.int line with
      | Some target_month => ret (Some target_month)
      | None => print "Error: Please enter a valid number" ;;; ret None
      end
  end.

(** [run_cli()], with [sys.argv] as its argument. *)
Definition run_cli (argv : list string) : M unit :=
  print "CLI Mode" ;;;
  print (Py.replicate 40 "=") ;;;
  csv_file <~ match argv with
              | _ :: path :: _ => ret path
              | _ => line <~ input "Enter CSV file path: " ;; ret (Py.strip line)
              end ;;
  emit (PathExists csv_file) ;;;
  if negb (path_exists csv_file) then
    print ("Error: File '" ++ csv_file ++ "' not found")
  else
    month <~ cli_month argv ;;
    match month with
    | None => ret tt
    | Some target_month =>
        if (target_month <? 1) || (12 <? target_month) then
          print "Error: Month must be between 1 and 12"
        else
          try_except
            (print (nl "Processing CSV file: " ++ csv_file) ;;;
             name <~ match month_name target_month with
                     | Some name => ret name
                     | None => raiseM (KeyError (Py.str_int target_month))
                     end ;;
             print ("Filtering for month: " ++ name) ;;;
             emit (ReadCsv csv_file) ;;;
             filtered_df <~ lift (process_csv csv_file target_month) ;;
             output_path <~ save_filtered_csv filtered_df target_month "." ;;
             print (nl "Success!") ;;;
             print ("Found " ++ Py.str_int (Z.of_nat (len filtered_df))
                    ++ " records for " ++ name) ;;;
             print ("Output saved to: " ++ output_path))
            (fun e => print ("Error: " ++ str_exn e))
    end.

End Program.

(** ** The form of [run_streamlit_app]

    The page is the list of the widgets the script shows, in order; the
    file the user uploaded, if any, and the option the user picks in the
    select box are its inputs. *)

Inductive widget : Type :=
| st_title (body : string)
| st_write (body : string)
| st_file_uploader (label : string) (type : string)
| st_selectbox (label : string) (options : list string)
| st_success (body : string)
| st_subheader (body : string)
| st_dataframe (df : DataFrame)
| st_download_button (label : string) (data : string) (file_name : string)
    (mime : string)
| st_warning (body : string)
| st_error (body : string).

Definition UI (A : Type) : Type := list widget -> result A * list widget.

Definition ui_ret {A : Type} (a : A) : UI A := fun page => (Ok a, page).

Definition ui_raise {A : Type} (e : exn) : UI A := fun page => (Raise e, page).

Definition ui_bind {A B : Type} (m : UI A) (k : A -> UI B) : UI B :=
  fun page =>
    match m page with
    | (Ok a, page') => k a page'
    | (Raise e, page') => (Raise e, page')
    end.

Notation "x <~~ m ;; k" := (ui_bind m (fun x => k))
  (at level 61, m at next level, right associativity).
Notation "m ;;;; k" := (ui_bind m (fun _ => k))
  (at level 61, right associativity).

(** [try: body except Exception as e: handler(e)] *)
Definition ui_try {A : Type} (body : UI A) (handler : exn -> UI A) : UI A :=
  fun page =>
    match body page with
    | (Ok a, page') => (Ok a, page')
    | (Raise e, page') => handler e page'
    end.

Definition ui_lift {A : Type} (r : result A) : UI A := fun page => (r, page).

Definition show (w : widget) : UI unit :=
  fun page => (Ok tt, (page ++ [w])%list).

(** A dictionary from texts to integers: an assignment replaces the value
    of a key in place, or appends the key. *)
Fixpoint dict_set (k : string) (v : Z) (d : list (string * Z))
  : list (string * Z) :=
  match d with
  | [] => [(k, v)]
  | (k', v') :: r =>
      if String.eqb k' k then (k', v) :: r else (k', v') :: dict_set k v r
  end.

(** [d[k]]: a missing key raises [KeyError(k)], whose text is the quoted
    key. *)
Fixpoint dict_get (d : list (string * Z)) (k : string) : result Z :=
  match d with
  | [] => Raise (KeyError ("'" ++ k ++ "'"))
  | (k', v) :: r => if String.eqb k' k then Ok v else dict_get r k
  end.

(** The dictionary comprehension of the month options, over [months] and
    from the dictionary [d]: the key of a month is its number, a dash and
    its name. *)
Fixpoint month_options_from (months : list Z) (d : list (string * Z))
  : result (list (string * Z)) :=
  match months with
  | [] => Ok d
  | i :: r =>
      match month_name i with
      | Some name =>
          month_options_from r (dict_set (Py.str_int i ++ " - " ++ name) i d)
      | None => Raise (KeyError (Py.str_int i))
      end
  end.

(** [range(1, 13)] *)
Definition range_1_13 : list Z := map Z.of_nat (seq 1 12).

(** [df.head()]: the first five rows. *)
Definition head (df : DataFrame) : DataFrame :=
  {| index := firstn 5 (index df);
     data := map (fun kc => (fst kc, firstn 5 (snd kc))) (data df) |}.

(** The text of the instructions on the page. *)
Definition instructions : string :=
  Py.join (String LF EmptyString)
    [EmptyString;
     "    1. In Engaging Networks, navigate to Data & Reports --> Export --> Monthly Donor Reports --> New Monthly Donor Report  ";
     "    2. Edit the query Participation Date to include the target month  ";
     "    3. Click Use Query  ";
     "    4. Use the following Export Options:  ";
     "        Format = Transaction  ";
     "        File Type = csv  ";
     "        Custom Reference Names = checked  ";
     "        Supporter Data Columns = checked  ";
     "        Use Export Group = Monthly Donor Reports  ";
     "        Use Export Version = version 2  ";
     "    5. Download the report from the Job monitor and upload below";
     "    "].

Section Form.

Variable read_csv : string -> result Table.
Variable to_datetime : list cell -> result (list (option Z)).
Variable argsort : list Z -> list nat.
Variable key_error_text : list string -> string.

(** [DataFrame.to_csv(index=False)]: the text of the file. *)
Variable to_csv_text : DataFrame -> string.

(** [run_streamlit_app()]: [uploaded_file] is what [st.file_uploader]
    returns, and [select] what [st.selectbox] returns for its options. *)
Definition run_streamlit_app (uploaded_file : option string)
  (select : list string -> string) : UI unit :=
  show (st_title "EN New Sustainers by Month") ;;;;
  show (st_write instructions) ;;;;
  show (st_file_uploader "Choose a CSV file" "csv") ;;;;
  month_options <~~ ui_lift (month_options_from range_1_13 []) ;;
  show (st_selectbox "Select Month" (map fst month_options)) ;;;;
  let selected_month_key := select (map fst month_options) in
  selected_month <~~ ui_lift (dict_get month_options selected_month_key) ;;
  match uploaded_file with
  | None => ui_ret tt
  | Some uploaded_file =>
      ui_try
        (filtered_df <~~ ui_lift (process_csv read_csv to_datetime argsort
                                    key_error_text uploaded_file
                                    selected_month) ;;
         name <~~ match month_name selected_month with
                  | Some name => ui_ret name
                  | None => ui_raise (KeyError (Py.str_int selected_month))
                  end ;;
         show (st_success ("Found " ++ Py.str_int (Z.of_nat (len filtered_df))
                           ++ " records for " ++ name)) ;;;;
         if (0 <? len filtered_df)%nat then
           show (st_subheader "Preview of filtered data:") ;;;;
           show (st_dataframe (head filtered_df)) ;;;;
           month_name <~~ match month_name selected_month with
                          | Some name => ui_ret name
                          | None =>
                              ui_raise (KeyError (Py.str_int selected_month))
                          end ;;
           let filename := month_name ++ " New EN Monthly Donors.csv" in
           let csv_data := to_csv_text filtered_df in
           show (st_download_button "Download Filtered CSV" csv_data
                   filename "text/csv")
         else
           name <~~ match month_name selected_month with
                    | Some name => ui_ret name
                    | None =>
                        ui_raise (KeyError (Py.str_int selected_month))
                    end ;;
           show (st_warning ("No records found for " ++ name)))
        (fun e => show (st_error ("Error: " ++ str_exn e)))
  end.

End Form.

(** ** Reference instances of the library functions

    Simple functions of the kind the parameters of the program range over;
    the examples run the program on them. *)

Module Ref.

(** A day-first reader of dates written [D/M/Y]. *)
Definition slash_date (c : cell) : option Z :=
  match c with
  | Str s =>
      match Py.split "/" (Py.strip s) with
      | [d; m; y] =>
          match Py.int d, Py.int m, Py.int y with
          | Some d, Some m, Some y =>
              if (1 <=? m) && (m <=? 12) && (1 <=? d) && (d <=? 31)
              then Some (Calendar.midnight y m d)
              else None
          | _, _, _ => None
          end
      | _ => None
      end
  | _ => None
  end.

Definition to_datetime (series : list cell) : result (list (option Z)) :=
  Ok (map slash_date series).

(** Insertion of a key with its position into a list sorted by key:
    before the keys that are equal to it, or after them. *)
Fixpoint insert (after_ties : bool) (k : Z) (i : nat) (l : list (Z * nat))
  : list (Z * nat) :=
  match l with
  | [] => [(k, i)]
  | (k', i') :: r =>
      if (if after_ties then k <? k' else k <=? k') then (k, i) :: l
      else (k', i') :: insert after_ties k i r
  end.

Definition insertion_sort (after_ties : bool) (l : list (Z * nat))
  : list (Z * nat) :=
  fold_right (fun ki acc => insert after_ties (fst ki) (snd ki) acc) [] l.

(** A sorting permutation that keeps equal keys in their order. *)
Definition argsort_stable (keys : list Z) : list nat :=
  map snd (insertion_sort false (combine keys (seq 0 (length keys)))).

(** A sorting permutation that reverses the order of equal keys: one more
    permutation a sort may give, to compare with the first. *)
Definition argsort_reversing (keys : list Z) : list nat :=
  map snd (insertion_sort true (combine keys (seq 0 (length keys)))).

Definition quoted (s : string) : string := "'" ++ s ++ "'".

Definition key_error_text (missing : list string) : string :=
  "[" ++ Py.join ", " (map quoted missing) ++ "] not in index".

Definition to_csv (path : string) (df : DataFrame) : option exn := None.

(** A row of the export with the given start date. *)
Definition donor (id : Z) (start : string) : list cell :=
  [Int id; Str "donor@example.org"; Int 77; NaN; Str "Ada"; Str "Ng";
   Str "North"; Str "1 Main St"; Str "Springfield"; Str "IL"; Int 62701;
   NaN; Str "Midwest"; Int 25; Str start; Str "extra"].

(** The export of the scenario: three donors, and one column more than
    the program keeps. *)
Definition march_table : Table :=
  {| header := (COLUMNS_TO_KEEP ++ ["Campaign Data 20"])%list;
     records := [donor 1 "5/3/2024"; donor 2 "20/3/2024"; donor 3 "1/4/2024"] |}.

(** Two donors who start on the same day. *)
Definition ties_table : Table :=
  {| header := (COLUMNS_TO_KEEP ++ ["Campaign Data 20"])%list;
     records := [donor 1 "5/3/2024"; donor 2 "5/3/2024"] |}.

(** An export without the start-date column. *)
Definition short_table : Table :=
  {| header := ["Supporter ID"; "Supporter Email"];
     records := [[Int 1; Str "donor@example.org"]] |}.

Definition read_csv (path : string) : result Table :=
  if String.eqb path "march.csv" then Ok march_table
  else if String.eqb path "ties.csv" then Ok ties_table
  else if String.eqb path "short.csv" then Ok short_table
  else Raise (OtherError "No such file or directory").

Definition path_exists (path : string) : bool :=
  String.eqb path "march.csv" || String.eqb path "ties.csv"
  || String.eqb path "short.csv".

(** The program on the reference instances. *)
Definition process_csv (after_ties : bool) : string -> Z -> result DataFrame :=
  process_csv read_csv to_datetime
    (if after_ties then argsort_reversing else argsort_stable) key_error_text.

Definition run_cli : list string -> M unit :=
  run_cli read_csv to_datetime argsort_stable key_error_text path_exists to_csv.

(** The start dates of [march_table], and the frame the program returns
    for it and month 3. *)
Definition march_dates : list cell :=
  [Str "5/3/2024"; Str "20/3/2024"; Str "1/4/2024"].

Definition frame_of (r : result DataFrame) : DataFrame :=
  match r with
  | Ok df => df
  | Raise _ => {| index := []; data := [] |}
  end.

Definition march_result : DataFrame :=
  Eval vm_compute in frame_of (process_csv false "march.csv" 3).

Definition start : world := {| stdin := []; trace := [] |}.

End Ref.

(** ** More reference instances *)

Module Ref2.

(** An export with the start-date column and the supporter's id only. *)
Definition dates_table : Table :=
  {| header := ["Supporter ID"; "Campaign Data 16"];
     records := [[Int 1; Str "5/3/2024"]; [Int 2; Str "1/4/2024"]] |}.

(** Twenty donors who start on the same day. *)
Definition same_day_dates : list cell := repeat (Str "5/3/2024") 20.

Definition same_day_table : Table :=
  {| header := (COLUMNS_TO_KEEP ++ ["Campaign Data 20"])%list;
     records := map (fun id => Ref.donor (Z.of_nat id) "5/3/2024") (seq 1 20) |}.

(** Two donors whose start dates the export gives in the ISO form. *)
Definition iso_dates : list cell := [Str "2024-05-03"; Str "2024-05-01"].

Definition iso_table : Table :=
  {| header := (COLUMNS_TO_KEEP ++ ["Campaign Data 20"])%list;
     records := [Ref.donor 1 "2024-05-03"; Ref.donor 2 "2024-05-01"] |}.

Definition read_csv (path : string) : result Table :=
  if String.eqb path "dates.csv" then Ok dates_table
  else if String.eqb path "same_day.csv" then Ok same_day_table
  else if String.eqb path "iso.csv" then Ok iso_table
  else Ref.read_csv path.

(** A reader of dates that takes the ISO form [Y-M-D] too, as the parser
    of pandas does. *)
Definition iso_date (c : cell) : option Z :=
  match c with
  | Str s =>
      match Py.split "-" (Py.strip s) with
      | [y; m; d] =>
          match Py.int y, Py.int m, Py.int d with
          | Some y, Some m, Some d =>
              if (1 <=? m) && (m <=? 12) && (1 <=? d) && (d <=? 31)
              then Some (Calendar.midnight y m d)
              else None
          | _, _, _ => None
          end
      | _ => Ref.slash_date c
      end
  | _ => None
  end.

Definition to_datetime_iso (series : list cell) : result (list (option Z)) :=
  Ok (map iso_date series).

(** The frame the program returns for [iso_table] and month 5. *)
Definition iso_result : DataFrame :=
  Eval vm_compute in
    Ref.frame_of (process_csv read_csv to_datetime_iso Ref.argsort_stable
                    Ref.key_error_text "iso.csv" 5).

(** The select box at its default: the first option. *)
Definition select_first (options : list string) : string :=
  hd EmptyString options.

(** The header line of the file of a frame. *)
Definition to_csv_text (df : DataFrame) : string :=
  Py.join "," (columns df).

(** The frame the program returns for [Ref.march_table] and month 3 when
    the sorting permutation reverses equal keys. *)
Definition march_result_reversing : DataFrame :=
  Eval vm_compute in Ref.frame_of (Ref.process_csv true "march.csv" 3).

Definition run_streamlit_app : option string -> (list string -> string) -> UI unit :=
  run_streamlit_app Ref.read_csv Ref.to_datetime Ref.argsort_stable
    Ref.key_error_text to_csv_text.

End Ref2.

(** ** The sort behind [sort_values]

    [sort_values(by="parsed_date")] names no [kind], so pandas asks numpy
    for the sorting permutation of the dates with [kind='quicksort'].  For
    datetime64 values that is numpy's [aquicksort]: an array of positions
    is sorted in place; a range with more than [SMALL_QUICKSORT] steps
    from its first to its last entry is partitioned around the median of
    three, a shorter one is sorted by insertion, and a range that comes
    off the stack too deep is left to a heap sort.  pandas takes the rows
    without a date out before it sorts, so the keys here are plain
    integers. *)

Module Numpy.

Local Open Scope nat_scope.

Definition SMALL_QUICKSORT : nat := 16.

(** The key [v[tosort[i]]]. *)
Definition key (v : list Z) (tosort : list nat) (i : nat) : Z :=
  nth (nth i tosort 0) v 0%Z.

(** [tosort[i] = x] *)
Fixpoint store (tosort : list nat) (i x : nat) : list nat :=
  match tosort, i with
  | [], _ => []
  | _ :: r, 0 => x :: r
  | y :: r, S i => y :: store r i x
  end.

Definition INTP_SWAP (tosort : list nat) (i j : nat) : list nat :=
  store (store tosort i (nth j tosort 0)) j (nth i tosort 0).

Definition less (a b : Z) : bool := (a <? b)%Z.

(** The position of the highest bit set. *)
Definition npy_get_msb (num : nat) : Z := Z.log2 (Z.of_nat num).

(** [do ++pi; while (v[*pi] < vp);] *)
Fixpoint scan_up (fuel : nat) (v : list Z) (tosort : list nat) (vp : Z)
    (pi : nat) : nat :=
  match fuel with
  | 0 => pi
  | S fuel =>
      let pi := S pi in
      if less (key v tosort pi) vp then scan_up fuel v tosort vp pi else pi
  end.

(** [do --pj; while (vp < v[*pj]);] *)
Fixpoint scan_down (fuel : nat) (v : list Z) (tosort : list nat) (vp : Z)
    (pj : nat) : nat :=
  match fuel with
  | 0 => pj
  | S fuel =>
      let pj := pj - 1 in
      if less vp (key v tosort pj) then scan_down fuel v tosort vp pj else pj
  end.

(** The exchange loop of a partition: both scans, then a swap, until the
    scans meet.  It returns the array and [pi]. *)
Fixpoint exchange (fuel : nat) (v : list Z) (tosort : list nat) (vp : Z)
    (pi pj : nat) : list nat * nat :=
  match fuel with
  | 0 => (tosort, pi)
  | S fuel =>
      let pi := scan_up (length tosort) v tosort vp pi in
      let pj := scan_down (length tosort) v tosort vp pj in
      if pj <=? pi then (tosort, pi)
      else exchange fuel v (INTP_SWAP tosort pi pj) vp pi pj
  end.

(** One partition of the range from [pl] to [pr]: the median of the
    first, middle and last keys becomes the pivot, is parked next to the
    last entry, and is put in its place [pi] after the exchanges. *)
Definition partition (v : list Z) (tosort : list nat) (pl pr : nat)
  : list nat * nat :=
  let pm := pl + (pr - pl) / 2 in
  let tosort := if less (key v tosort pm) (key v tosort pl)
                then INTP_SWAP tosort pm pl else tosort in
  let tosort := if less (key v tosort pr) (key v tosort pm)
                then INTP_SWAP tosort pr pm else tosort in
  let tosort := if less (key v tosort pm) (key v tosort pl)
                then INTP_SWAP tosort pm pl else tosort in
  let vp := key v tosort pm in
  let tosort := INTP_SWAP tosort pm (pr - 1) in
  let (tosort, pi) := exchange (length tosort) v tosort vp pl (pr - 1) in
  (INTP_SWAP tosort pi (pr - 1), pi).

(** [while (pj > pl && vp < v[*pk]) *pj-- = *pk--;] with [pk] one below
    [pj]. *)
Fixpoint shift (fuel : nat) (v : list Z) (tosort : list nat) (vp : Z)
    (pl pj : nat) : list nat * nat :=
  match fuel with
  | 0 => (tosort, pj)
  | S fuel =>
      if (pl <? pj) && less vp (key v tosort (pj - 1))
      then shift fuel v (store tosort pj (nth (pj - 1) tosort 0)) vp pl (pj - 1)
      else (tosort, pj)
  end.

(** The insertion sort of the range from [pl] to [pr]. *)
Definition insertion (v : list Z) (tosort : list nat) (pl pr : nat)
  : list nat :=
  fold_left
    (fun tosort pi =>
       let vi := nth pi tosort 0 in
       let (tosort, pj) := shift pi v tosort (nth vi v 0%Z) pl pi in
       store tosort pj vi)
    (seq (pl + 1) (pr - pl)) tosort.

(** The heap sort works on [a], the range that starts at [pl] counted
    from one. *)
Definition a_get (tosort : list nat) (pl k : nat) : nat :=
  nth (pl + k - 1) tosort 0.

Definition a_set (tosort : list nat) (pl k x : nat) : list nat :=
  store tosort (pl + k - 1) x.

(** The inner loop of both halves of the heap sort: [tmp] sinks from
    [a[i]] through the larger children, among the first [n] entries. *)
Fixpoint sift (fuel : nat) (v : list Z) (tosort : list nat) (pl n tmp i j : nat)
  : list nat * nat :=
  match fuel with
  | 0 => (tosort, i)
  | S fuel =>
      if j <=? n then
        let j := if (j <? n)
                    && less (nth (a_get tosort pl j) v 0%Z)
                            (nth (a_get tosort pl (j + 1)) v 0%Z)
                 then j + 1 else j in
        if less (nth tmp v 0%Z) (nth (a_get tosort pl j) v 0%Z)
        then sift fuel v (a_set tosort pl i (a_get tosort pl j)) pl n tmp j (j + j)
        else (tosort, i)
      else (tosort, i)
  end.

Definition aheapsort (v : list Z) (tosort : list nat) (pl n : nat)
  : list nat :=
  let heap :=
    fold_left
      (fun tosort l =>
         let tmp := a_get tosort pl l in
         let (tosort, i) := sift n v tosort pl n tmp l (2 * l) in
         a_set tosort pl i tmp)
      (rev (seq 1 (n / 2))) tosort in
  fold_left
    (fun tosort n =>
       let tmp := a_get tosort pl n in
       let tosort := a_set tosort pl n (a_get tosort pl 1) in
       let (tosort, i) := sift n v tosort pl (n - 1) tmp 1 2 in
       a_set tosort pl i tmp)
    (rev (seq 2 (n - 1))) heap.

(** The loop over ranges.  [top] tells that the range has just come off
    the stack (or is the whole array): only then is its depth looked at.
    Of the two sides of a partition the larger goes on the stack and the
    smaller is taken up at once. *)
Fixpoint ranges (fuel : nat) (v : list Z) (tosort : list nat) (pl pr : nat)
    (cdepth : Z) (stack : list (nat * nat * Z)) (top : bool) : list nat :=
  match fuel with
  | 0 => tosort
  | S fuel =>
      let stack_pop tosort :=
        match stack with
        | [] => tosort
        | (pl, pr, cdepth) :: stack =>
            ranges fuel v tosort pl pr cdepth stack true
        end in
      if top && (cdepth <? 0)%Z
      then stack_pop (aheapsort v tosort pl (pr - pl + 1))
      else if SMALL_QUICKSORT <? pr - pl then
        let (tosort, pi) := partition v tosort pl pr in
        if pi - pl <? pr - pi
        then ranges fuel v tosort pl (pi - 1) (cdepth - 1)%Z
               ((pi + 1, pr, (cdepth - 1)%Z) :: stack) false
        else ranges fuel v tosort (pi + 1) pr (cdepth - 1)%Z
               ((pl, pi - 1, (cdepth - 1)%Z) :: stack) false
      else stack_pop (insertion v tosort pl pr)
  end.

(** [np.argsort(v, kind='quicksort')]: every turn of the loop places a
    pivot or finishes a range, so twice the length and two turns more
    are enough. *)
Definition aquicksort (v : list Z) : list nat :=
  let num := length v in
  ranges (2 * num + 2) v (seq 0 num) 0 (num - 1) (npy_get_msb num * 2)%Z [] true.

End Numpy.

(** ** Notions used to state the facts *)

(** The date belongs to the target month. *)
Definition month_is (target_month : Z) (d : option Z) : bool :=
  match d with
  | Some ns => Calendar.month ns =? target_month
  | None => false
  end.

(** The row labels the month filter keeps, in input order. *)
Definition kept_labels (target_month : Z) (parsed : list (option Z)) : list nat :=
  compress (map (month_is target_month) parsed) (seq 0 (length parsed)).

(** The dates of the rows the month filter keeps, in input order. *)
Definition kept_stamps (target_month : Z) (parsed : list (option Z)) : list Z :=
  flat_map (fun d => match d with
                     | Some ns => if Calendar.month ns =? target_month
                                  then [ns] else []
                     | None => []
                     end) parsed.

(** What the sorting permutation owes its caller: a permutation of the
    positions that puts the keys in non-decreasing order.  The order of
    equal keys is not part of it: [kind='quicksort'] is not a stable
    sort. *)
Definition argsort_contract (argsort : list Z -> list nat) : Prop :=
  (forall keys, Permutation (argsort keys) (seq 0 (length keys)))
  /\ (forall keys,
        StronglySorted Z.le (map (fun i => nth i keys 0) (argsort keys))).

(** [x] stands before [y] in [l]. *)
Definition before {A : Type} (x y : A) (l : list A) : Prop :=
  exists l1 l2 l3, l = (l1 ++ x :: l2 ++ y :: l3)%list.

(** Rows with equal dates come out in their input order. *)
Definition ties_keep_input_order (parsed : list (option Z)) (labels : list nat)
  : Prop :=
  forall i j,
    (i < j)%nat -> In i labels -> In j labels ->
    nth i parsed None = nth j parsed None -> before i j labels.

(** The order of keyed positions by their keys. *)
Definition by_key (a b : Z * nat) : Prop := fst a <= fst b.

(** The kept columns a table's header lacks, in the order of
    [COLUMNS_TO_KEEP]. *)
Definition missing_columns (t : Table) : list string :=
  filter (fun n => negb (existsb (String.eqb n) (header t))) COLUMNS_TO_KEEP.

(** The column of a table under a label, empty when there is none. *)
Definition column_of (t : Table) (n : string) : list cell :=
  match lookup n (data (frame_of_table t)) with
  | Some c => c
  | None => []
  end.

(** The event is the writing of a file. *)
Definition is_write (e : event) : bool :=
  match e with
  | ToCsv _ _ => true
  | _ => false
  end.

(** The event is the reading of a file. *)
Definition is_read (e : event) : bool :=
  match e with
  | ReadCsv _ => true
  | _ => false
  end.

(** A step that touches no file: it only appends events that are neither
    reads nor writes, and what it raises, if anything, is the [EOFError]
    of an exhausted input. *)
Definition quiet {A : Type} (m : M A) : Prop :=
  forall w r w',
    m w = (r, w') ->
    (exists added,
       trace w' = (trace w ++ added)%list
       /\ filter is_read added = [] /\ filter is_write added = [])
    /\ ((exists a, r = Ok a)
        \/ (r = Raise (EOFError "EOF when reading a line") /\ stdin w' = [])).

(** A run that is careful with files: it returns, or raises the
    [EOFError] of an exhausted input; it only appends to the trace, at most
    one read and one write, and what it writes satisfies [P]. *)
Definition careful (P : string -> DataFrame -> Prop) (m : M unit) : Prop :=
  forall w r w',
    m w = (r, w') ->
    (r = Ok tt
     \/ (r = Raise (EOFError "EOF when reading a line") /\ stdin w' = []))
    /\ exists added,
         trace w' = (trace w ++ added)%list
         /\ (length (filter is_read added) <= 1)%nat
         /\ (length (filter is_write added) <= 1)%nat
         /\ forall path df, In (ToCsv path df) added -> P path df.

(** What [run_cli] may write: a frame [process_csv] returned for a path
    that exists and a month of [MONTH_NAMES], under that month's file name
    in the current directory. *)
Definition written (read_csv : string -> result Table)
  (to_datetime : list cell -> result (list (option Z)))
  (argsort : list Z -> list nat)
  (key_error_text : list string -> string)
  (path_exists : string -> bool)
  (path : string) (df : DataFrame) : Prop :=
  exists csv_file m name,
    path_exists csv_file = true /\ month_name m = Some name
    /\ process_csv read_csv to_datetime argsort key_error_text csv_file m
       = Ok df
    /\ path = "./" ++ name ++ " New EN Monthly Donors.csv".

(** ** Sanity checks of the primitives *)

Example strip_ex : Py.strip "  5/3/2024 " = "5/3/2024".
Proof. reflexivity. Qed.

Example split_ex : Py.split "/" "5/3/2024" = ["5"; "3"; "2024"].
Proof. reflexivity. Qed.

Example split_empty_ex : Py.split "/" "" = [""].
Proof. reflexivity. Qed.

Example zfill_ex :
  Py.zfill 2 "5" = "05" /\ Py.zfill 2 "20" = "20" /\ Py.zfill 2 "" = "00"
  /\ Py.zfill 2 "-" = "-0" /\ Py.zfill 2 "2024" = "2024".
Proof. repeat split; reflexivity. Qed.

Example int_ex :
  Py.int " 03 " = Some 3 /\ Py.int "-1_0" = Some (-10) /\ Py.int "x" = None
  /\ Py.int "" = None /\ Py.int "1__0" = None /\ Py.int "3.5" = None.
Proof. repeat split; reflexivity. Qed.

Example month_ex :
  Calendar.month (Calendar.midnight 2024 3 5) = 3
  /\ Calendar.month (Calendar.midnight 2024 4 1) = 4
  /\ Calendar.month (Calendar.midnight 1969 12 31) = 12
  /\ Calendar.month 0 = 1.
Proof. repeat split; reflexivity. Qed.

Example isoformat_ex :
  Calendar.isoformat (Calendar.midnight 2024 3 5 + 3723000001000)
  = "2024-03-05 01:02:03.000001".
Proof. reflexivity. Qed.

Example reformat_ex :
  reformat_date_string (Str "5/3/2024") = "03/05/2024"
  /\ reformat_date_string (Str "20/3/2024") = "03/20/2024"
  /\ reformat_date_string (Str "2024-03-05") = ""
  /\ reformat_date_string NaN = ""
  /\ reformat_date_string (Str "a/b/c") = "0b/0a/c".
Proof. repeat split; reflexivity. Qed.

Example parse_ex :
  parse_date_column (Str "5/3/2024") = Some 3
  /\ parse_date_column (Str "") = None
  /\ parse_date_column NaN = None
  /\ parse_date_column (Str "5/x/2024") = None
  /\ parse_date_column (Str "x/3/y") = Some 3.
Proof. repeat split; reflexivity. Qed.

(** [int] does not skip the separators FS..US that [strip] removes. *)
Example int_separator_ex :
  Py.strip (String (ascii_of_nat 31) "3") = "3"
  /\ Py.int (String (ascii_of_nat 31) "3") = None
  /\ Py.int (String (ascii_of_nat 160) "3") = Some 3
  /\ Py.int (String (ascii_of_nat 11) "3 ") = Some 3.
Proof. repeat split; reflexivity. Qed.

(** * Facts *)

(** ** Strings *)

Section StringFacts.

Local Open Scope nat_scope.

Lemma slash_not_space : Py.is_space "/" = false.
Proof. reflexivity. Qed.

Lemma digit_not_space c : Py.is_digit c = true -> Py.is_space c = false.
Proof.
  unfold Py.is_digit, Py.is_space. intros H.
  apply andb_true_iff in H as [H1 H2].
  apply N.leb_le in H1. apply N.leb_le in H2.
  repeat match goal with
         | |- context [N.leb ?a ?b] => destruct (N.leb_spec a b); try lia
         | |- context [N.eqb ?a ?b] => destruct (N.eqb_spec a b); try lia
         end; reflexivity.
Qed.

Lemma digit_not_char c k :
  Py.is_digit c = true -> Py.is_digit k = false -> Ascii.eqb c k = false.
Proof.
  intros Hc Hk. destruct (Ascii.eqb_spec c k) as [->|]; congruence.
Qed.

Lemma append_nil_r (s : string) : (s ++ "")%string = s.
Proof. induction s; simpl; congruence. Qed.

Lemma append_assoc (a b c : string) :
  ((a ++ b) ++ c)%string = (a ++ (b ++ c))%string.
Proof. induction a; simpl; congruence. Qed.

Lemma append_not_empty (a b : string) c :
  (a ++ String c b)%string <> EmptyString.
Proof. destruct a; discriminate. Qed.

Lemma count_append c (a b : string) :
  Py.count c (a ++ b) = Py.count c a + Py.count c b.
Proof.
  induction a as [|x a IH]; simpl; [reflexivity|].
  destruct (Ascii.eqb x c); simpl; lia.
Qed.

Lemma split_not_nil sep s : Py.split sep s <> [].
Proof.
  destruct s as [|c s]; simpl; [discriminate|].
  destruct (Ascii.eqb c sep); [discriminate|].
  destruct (Py.split sep s); discriminate.
Qed.

(** A string has one field more than it has separators. *)
Lemma split_length sep s :
  length (Py.split sep s) = S (Py.count sep s).
Proof.
  induction s as [|c s IH]; simpl; [reflexivity|].
  destruct (Ascii.eqb c sep); simpl; [congruence|].
  destruct (Py.split sep s); simpl in *; congruence.
Qed.

Lemma count_lstrip c s :
  Py.is_space c = false -> Py.count c (Py.lstrip s) = Py.count c s.
Proof.
  intros Hc. induction s as [|x s IH]; simpl; [reflexivity|].
  destruct (Py.is_space x) eqn:Hx; [|reflexivity].
  destruct (Ascii.eqb_spec x c) as [->|]; congruence.
Qed.

Lemma count_rstrip c s :
  Py.is_space c = false -> Py.count c (Py.rstrip s) = Py.count c s.
Proof.
  intros Hc. induction s as [|x s IH]; simpl; [reflexivity|].
  destruct (Py.rstrip s) eqn:Hr; simpl in *.
  - destruct (Py.is_space x) eqn:Hx; simpl.
    + destruct (Ascii.eqb_spec x c) as [->|]; congruence.
    + destruct (Ascii.eqb x c); lia.
  - destruct (Ascii.eqb x c); lia.
Qed.

Lemma count_strip c s :
  Py.is_space c = false -> Py.count c (Py.strip s) = Py.count c s.
Proof.
  intros Hc. unfold Py.strip.
  now rewrite count_rstrip, count_lstrip.
Qed.

Lemma lstrip_append_slash d r :
  Py.lstrip (d ++ String "/" r) = (Py.lstrip d ++ String "/" r)%string.
Proof.
  induction d as [|c d IH]; simpl; [reflexivity|].
  destruct (Py.is_space c); [exact IH | reflexivity].
Qed.

Lemma rstrip_append_slash a y :
  Py.rstrip (a ++ String "/" y) = (a ++ String "/" (Py.rstrip y))%string.
Proof.
  induction a as [|c a IH].
  - simpl. destruct (Py.rstrip y); reflexivity.
  - change (Py.rstrip (String c (a ++ String "/" y))
            = String c (a ++ String "/" (Py.rstrip y))).
    simpl. rewrite IH. destruct a; reflexivity.
Qed.

Lemma split_append_slash d r :
  Py.count "/" d = 0 ->
  Py.split "/" (d ++ String "/" r) = d :: Py.split "/" r.
Proof.
  induction d as [|c d IH]; simpl; [reflexivity|].
  destruct (Ascii.eqb c "/"); [discriminate|].
  intros H. now rewrite (IH H).
Qed.

Lemma split_no_slash y : Py.count "/" y = 0 -> Py.split "/" y = [y].
Proof.
  induction y as [|c y IH]; simpl; [reflexivity|].
  destruct (Ascii.eqb c "/"); [discriminate|].
  intros H. now rewrite (IH H).
Qed.

(** The fields of a stripped [d/m/y]: only the ends lose their blanks. *)
Lemma split_strip_dmy d m y :
  Py.count "/" d = 0 -> Py.count "/" m = 0 -> Py.count "/" y = 0 ->
  Py.split "/" (Py.strip (d ++ "/" ++ m ++ "/" ++ y))
  = [Py.lstrip d; m; Py.rstrip y].
Proof.
  intros Hd Hm Hy. unfold Py.strip.
  change (d ++ "/" ++ m ++ "/" ++ y)%string
    with (d ++ String "/" (m ++ String "/" y))%string.
  rewrite lstrip_append_slash, rstrip_append_slash, rstrip_append_slash.
  rewrite split_append_slash
    by now rewrite count_lstrip by apply slash_not_space.
  rewrite split_append_slash by assumption.
  rewrite split_no_slash
    by now rewrite count_rstrip by apply slash_not_space.
  reflexivity.
Qed.

Lemma all_digits_count s : Py.all_digits s = true -> Py.count "/" s = 0.
Proof.
  induction s as [|c s IH]; simpl; [reflexivity|].
  intros H. apply andb_true_iff in H as [Hc Hs].
  rewrite (digit_not_char c "/" Hc eq_refl). auto.
Qed.

Lemma isdecimal_all_digits s : Py.isdecimal s = true -> Py.all_digits s = true.
Proof. destruct s; [discriminate | auto]. Qed.

Lemma lstrip_decimal s : Py.isdecimal s = true -> Py.lstrip s = s.
Proof.
  destruct s as [|c s]; [discriminate|]. simpl.
  intros H. apply andb_true_iff in H as [Hc _].
  now rewrite (digit_not_space c Hc).
Qed.

Lemma rstrip_all_digits s : Py.all_digits s = true -> Py.rstrip s = s.
Proof.
  induction s as [|c s IH]; simpl; [reflexivity|].
  intros H. apply andb_true_iff in H as [Hc Hs].
  rewrite (IH Hs), (digit_not_space c Hc). destruct s; reflexivity.
Qed.

(** What [zfill(2)] does to a decimal field: nothing, or one zero in
    front of a single digit. *)
Lemma zfill2_decimal s :
  Py.isdecimal s = true ->
  Py.zfill 2 s = s
  \/ exists c, s = String c EmptyString /\ Py.is_digit c = true
               /\ Py.zfill 2 s = String "0" s.
Proof.
  destruct s as [|c [|c' s]]; [discriminate| |]; intros H.
  - right. exists c. simpl in H. rewrite andb_true_r in H.
    repeat split; auto. unfold Py.zfill. simpl.
    now rewrite (digit_not_char c "+" H eq_refl),
                (digit_not_char c "-" H eq_refl).
  - left. reflexivity.
Qed.

Lemma digit_not_int_space c :
  Py.is_digit c = true -> Py.is_int_space c = false.
Proof.
  unfold Py.is_digit, Py.is_int_space. intros H.
  apply andb_true_iff in H as [H1 H2].
  apply N.leb_le in H1. apply N.leb_le in H2.
  repeat match goal with
         | |- context [N.leb ?a ?b] => destruct (N.leb_spec a b); try lia
         | |- context [N.eqb ?a ?b] => destruct (N.eqb_spec a b); try lia
         end; reflexivity.
Qed.

Lemma int_lstrip_decimal s : Py.isdecimal s = true -> Py.int_lstrip s = s.
Proof.
  destruct s as [|c s]; [discriminate|]. simpl.
  intros H. apply andb_true_iff in H as [Hc _].
  now rewrite (digit_not_int_space c Hc).
Qed.

Lemma int_rstrip_all_digits s :
  Py.all_digits s = true -> Py.int_rstrip s = s.
Proof.
  induction s as [|c s IH]; simpl; [reflexivity|].
  intros H. apply andb_true_iff in H as [Hc Hs].
  rewrite (IH Hs), (digit_not_int_space c Hc). destruct s; reflexivity.
Qed.

Lemma int_zero_digit c :
  Py.is_digit c = true ->
  Py.int (String "0" (String c "")) = Py.int (String c "").
Proof.
  intros H. unfold Py.int.
  rewrite (int_lstrip_decimal (String "0" (String c "")))
    by (cbn; now rewrite H).
  rewrite (int_rstrip_all_digits (String "0" (String c "")))
    by (cbn; now rewrite H).
  rewrite (int_lstrip_decimal (String c "")) by (cbn; now rewrite H).
  rewrite (int_rstrip_all_digits (String c "")) by (cbn; now rewrite H).
  rewrite (digit_not_char c "-" H eq_refl), (digit_not_char c "+" H eq_refl).
  cbn. rewrite H. reflexivity.
Qed.

Lemma int_zfill2_decimal s :
  Py.isdecimal s = true -> Py.int (Py.zfill 2 s) = Py.int s.
Proof.
  intros H. destruct (zfill2_decimal s H) as [->|(c & -> & Hc & ->)];
    [reflexivity | now apply int_zero_digit].
Qed.

Lemma zfill2_all_digits s :
  Py.isdecimal s = true -> Py.all_digits (Py.zfill 2 s) = true.
Proof.
  intros H. destruct (zfill2_decimal s H) as [->|(c & -> & Hc & ->)].
  - now apply isdecimal_all_digits.
  - simpl. now rewrite Hc.
Qed.

End StringFacts.

(** ** The date helpers *)

Section DateFacts.

Local Open Scope nat_scope.

Lemma reformat_three_fields s d m y :
  Py.split "/" (Py.strip s) = [d; m; y] ->
  reformat_date_string (Str s)
  = (Py.zfill 2 m ++ "/" ++ Py.zfill 2 d ++ "/" ++ y)%string.
Proof. unfold reformat_date_string. simpl. now intros ->. Qed.

Lemma reformat_other_count s :
  Py.count "/" s <> 2 -> reformat_date_string (Str s) = "".
Proof.
  intros H. unfold reformat_date_string. simpl.
  pose proof (split_length "/" (Py.strip s)) as L.
  rewrite count_strip in L by apply slash_not_space.
  destruct (Py.split "/" (Py.strip s)) as [|a [|b [|c [|e r]]]];
    simpl in L; try reflexivity; lia.
Qed.

Lemma reformat_dmy d m y :
  Py.count "/" d = 0 -> Py.count "/" m = 0 -> Py.count "/" y = 0 ->
  reformat_date_string (Str (d ++ "/" ++ m ++ "/" ++ y))
  = (Py.zfill 2 m ++ "/" ++ Py.zfill 2 (Py.lstrip d) ++ "/"
     ++ Py.rstrip y)%string.
Proof.
  intros Hd Hm Hy. apply reformat_three_fields. now apply split_strip_dmy.
Qed.

(** A decimal field of at most 4300 digits is a number for [int]. *)
Lemma digits_all_digits s : forall acc n seen,
  Py.all_digits s = true -> (seen = true \/ s <> EmptyString) ->
  exists v, Py.digits acc n seen s = Some (v, n + String.length s).
Proof.
  induction s as [|c s IH]; intros acc n seen A N.
  - destruct N as [->|N]; [|congruence]. exists acc. simpl. now rewrite Nat.add_0_r.
  - cbn [Py.all_digits] in A. apply andb_true_iff in A as [Hc A].
    cbn [Py.digits String.length]. rewrite Hc.
    destruct (IH (10 * acc + Py.digit_value c)%Z (S n) true A (or_introl eq_refl))
      as [v E].
    exists v. rewrite E. f_equal. f_equal. lia.
Qed.

Lemma int_decimal s :
  Py.isdecimal s = true -> String.length s <= Py.int_max_str_digits ->
  exists v, Py.int s = Some v.
Proof.
  intros H L. pose proof (isdecimal_all_digits s H) as A.
  unfold Py.int.
  rewrite (int_lstrip_decimal s H), (int_rstrip_all_digits s A).
  destruct s as [|c s]; [discriminate|].
  assert (Hc : Py.is_digit c = true)
    by (simpl in A; now apply andb_true_iff in A as [? _]).
  rewrite (digit_not_char c "-" Hc eq_refl), (digit_not_char c "+" Hc eq_refl).
  destruct (digits_all_digits (String c s) 0%Z 0 false A) as [v E];
    [right; discriminate|].
  rewrite E. exists v.
  destruct (Nat.ltb_spec Py.int_max_str_digits (0 + String.length (String c s)));
    [lia | reflexivity].
Qed.

(** C3, as the code has it: [reformat_date_string] is a total function;
    it returns the empty string exactly when the input does not have two
    slashes, and for three fields, whatever they hold, the month and the
    day padded to two characters and the year, with the blanks around the
    whole input dropped. *)
Theorem reformat_date_string_by_field_count (s : string) :
  (reformat_date_string (Str s) = "" <-> Py.count "/" s <> 2)
  /\ (forall d m y,
        Py.count "/" d = 0 -> Py.count "/" m = 0 -> Py.count "/" y = 0 ->
        s = (d ++ "/" ++ m ++ "/" ++ y)%string ->
        reformat_date_string (Str s)
        = (Py.zfill 2 m ++ "/" ++ Py.zfill 2 (Py.lstrip d) ++ "/"
           ++ Py.rstrip y)%string).
Proof.
  split.
  - split; [|apply reformat_other_count].
    intros E C.
    pose proof (split_length "/" (Py.strip s)) as L.
    rewrite count_strip, C in L by apply slash_not_space.
    destruct (Py.split "/" (Py.strip s)) as [|a [|b [|c [|e r]]]] eqn:F;
      simpl in L; try lia.
    rewrite (reformat_three_fields s a b c F) in E.
    now apply append_not_empty in E.
  - intros d m y Hd Hm Hy ->. now apply reformat_dmy.
Qed.

(** C3, as the spec states it, fails: three fields that are not numbers
    are rearranged and padded like any others. *)
Lemma reformat_date_string_keeps_non_numeric :
  Py.int "a" = None /\ Py.int "b" = None /\ Py.int "c" = None
  /\ reformat_date_string (Str "a/b/c") = "0b/0a/c"%string.
Proof. repeat split; reflexivity. Qed.

Lemma parse_three_fields s d m y :
  Py.split "/" (Py.strip s) = [d; m; y] ->
  parse_date_column (Str s) = Py.int m.
Proof.
  unfold parse_date_column. simpl. intros F.
  destruct (String.eqb_spec (Py.strip s) "nan") as [E|_].
  - rewrite E in F. discriminate.
  - now rewrite F.
Qed.

Lemma parse_other_count s :
  Py.count "/" s <> 2 -> parse_date_column (Str s) = None.
Proof.
  intros H. unfold parse_date_column. simpl.
  destruct (String.eqb (Py.strip s) "nan"); [reflexivity|].
  pose proof (split_length "/" (Py.strip s)) as L.
  rewrite count_strip in L by apply slash_not_space.
  destruct (Py.split "/" (Py.strip s)) as [|a [|b [|c [|e r]]]];
    simpl in L; try reflexivity; lia.
Qed.

(** C4, as the code has it: [parse_date_column] is a total function; it
    returns [None] when the input does not have two slashes (the empty
    string and the missing-value marker are such inputs), and for three
    fields it returns what [int] makes of the month field alone: [None]
    when that field is not a number, whatever the day and the year are. *)
Theorem parse_date_column_month_field (s : string) :
  (Py.count "/" s <> 2 -> parse_date_column (Str s) = None)
  /\ (forall d m y,
        Py.count "/" d = 0 -> Py.count "/" m = 0 -> Py.count "/" y = 0 ->
        s = (d ++ "/" ++ m ++ "/" ++ y)%string ->
        parse_date_column (Str s) = Py.int m)
  /\ parse_date_column (Str "") = None
  /\ parse_date_column (Str "nan") = None
  /\ parse_date_column NaN = None.
Proof.
  split; [apply parse_other_count|].
  split; [|repeat split; reflexivity].
  intros d m y Hd Hm Hy ->.
  apply (parse_three_fields _ (Py.lstrip d) m (Py.rstrip y)).
  now apply split_strip_dmy.
Qed.

(** C4, as the spec states it, fails: a day and a year that are not
    numbers do not make the result [None]. *)
Lemma parse_date_column_ignores_day_and_year :
  Py.int "x" = None /\ Py.int "y" = None
  /\ parse_date_column (Str "x/3/y") = Some 3%Z.
Proof. repeat split; reflexivity. Qed.

(** C7: for a day, a month and a year written in decimal digits, the
    output of [reformat_date_string] splits on the slash into the padded
    month, the padded day and the year, and [int] reads from them the
    numbers it reads from the input's fields. *)
Theorem reformat_date_string_round_trip (d m y : string) :
  Py.isdecimal d = true -> Py.isdecimal m = true -> Py.isdecimal y = true ->
  exists m' d' y',
    Py.split "/" (reformat_date_string (Str (d ++ "/" ++ m ++ "/" ++ y)))
    = [m'; d'; y']
    /\ m' = Py.zfill 2 m /\ d' = Py.zfill 2 d /\ y' = y
    /\ Py.int m' = Py.int m /\ Py.int d' = Py.int d /\ Py.int y' = Py.int y.
Proof.
  intros Hd Hm Hy.
  pose proof (isdecimal_all_digits _ Hd) as Ad.
  pose proof (isdecimal_all_digits _ Hm) as Am.
  pose proof (isdecimal_all_digits _ Hy) as Ay.
  exists (Py.zfill 2 m), (Py.zfill 2 d), y.
  rewrite (reformat_dmy d m y) by (auto using all_digits_count).
  rewrite (lstrip_decimal d Hd), (rstrip_all_digits y Ay).
  change (Py.zfill 2 m ++ "/" ++ Py.zfill 2 d ++ "/" ++ y)%string
    with (Py.zfill 2 m ++ String "/" (Py.zfill 2 d ++ String "/" y))%string.
  rewrite split_append_slash
    by (apply all_digits_count; now apply zfill2_all_digits).
  rewrite split_append_slash
    by (apply all_digits_count; now apply zfill2_all_digits).
  rewrite (split_no_slash y) by now apply all_digits_count.
  repeat split; auto using int_zfill2_decimal.
Qed.

Lemma reformat_date_string_round_trip_witness :
  exists m' d' y',
    Py.split "/" (reformat_date_string (Str ("5" ++ "/" ++ "3" ++ "/" ++ "2024")))
    = [m'; d'; y']
    /\ m' = Py.zfill 2 "3" /\ d' = Py.zfill 2 "5" /\ y' = "2024"%string
    /\ Py.int m' = Py.int "3" /\ Py.int d' = Py.int "5"
    /\ Py.int y' = Py.int "2024".
Proof.
  apply (reformat_date_string_round_trip "5" "3" "2024"); reflexivity.
Defined.

End DateFacts.

(** ** More on the date helpers *)

Section DateMore.

Local Open Scope nat_scope.

Lemma count_replicate_other c k n :
  Ascii.eqb k c = false -> Py.count c (Py.replicate n k) = 0.
Proof.
  intros H. induction n as [|n IH]; cbn [Py.replicate Py.count];
    [reflexivity|]. now rewrite H.
Qed.

(** Padding with zeros adds no other character. *)
Lemma count_zfill c w s :
  Ascii.eqb "0" c = false -> Py.count c (Py.zfill w s) = Py.count c s.
Proof.
  intros H. unfold Py.zfill.
  destruct (w <=? String.length s); [reflexivity|].
  destruct s as [|a r].
  - now rewrite count_replicate_other.
  - destruct (Ascii.eqb a "+" || Ascii.eqb a "-").
    + cbn [Py.count]. rewrite count_append, count_replicate_other by assumption.
      reflexivity.
    + rewrite count_append, count_replicate_other by assumption. reflexivity.
Qed.

Lemma count_slash_uint d :
  Py.count "/" (NilEmpty.string_of_uint d) = 0.
Proof. induction d; cbn; auto. Qed.

Lemma count_slash_str_int z : Py.count "/" (Py.str_int z) = 0.
Proof.
  unfold Py.str_int, NilZero.string_of_int, NilZero.string_of_uint.
  destruct (Z.to_int z) as [d|d]; destruct d; cbn;
    auto using count_slash_uint.
Qed.

Lemma count_slash_isoformat ns : Py.count "/" (Calendar.isoformat ns) = 0.
Proof.
  unfold Calendar.isoformat, Calendar.two.
  destruct (Calendar.civil_from_days _) as [[y m] d].
  repeat rewrite count_append.
  repeat rewrite count_zfill by reflexivity.
  repeat rewrite count_slash_str_int.
  destruct (_ =? 0)%Z; [reflexivity|].
  destruct (_ =? 0)%Z;
    rewrite count_append, count_zfill, count_slash_str_int by reflexivity;
    reflexivity.
Qed.

Lemma count_slash_not_text d :
  (forall s, d <> Str s) -> Py.count "/" (py_str d) = 0.
Proof.
  intros N. destruct d as [s|z| |ns|]; cbn [py_str];
    auto using count_slash_str_int, count_slash_isoformat.
  now destruct (N s).
Qed.

(** X16: a cell that is not a text (an integer, a missing value, a
    timestamp) is rewritten to the empty text by [reformat_date_string],
    and [parse_date_column] reads no month from it. *)
Theorem date_helpers_on_other_cells d :
  (forall s, d <> Str s) ->
  reformat_date_string d = EmptyString /\ parse_date_column d = None.
Proof.
  intros N. pose proof (count_slash_not_text d N) as C. split.
  - change (reformat_date_string (Str (py_str d)) = EmptyString).
    apply reformat_other_count. lia.
  - change (parse_date_column (Str (py_str d)) = None).
    apply parse_other_count. lia.
Qed.

(** X17: what [reformat_date_string] returns for a text is the empty
    text or a text of three fields again: it has exactly two slashes when
    the input has. *)
Theorem reformat_date_string_keeps_field_count s :
  Py.count "/" s = 2 ->
  Py.count "/" (reformat_date_string (Str s)) = 2.
Proof.
  intros C.
  pose proof (split_length "/" (Py.strip s)) as L.
  rewrite count_strip, C in L by apply slash_not_space.
  pose proof (count_strip "/" s slash_not_space) as CS. rewrite C in CS.
  destruct (Py.split "/" (Py.strip s)) as [|d [|m [|y [|e r]]]] eqn:F;
    cbn [length] in L; try lia.
  rewrite (reformat_three_fields s d m y F).
  assert (J : Py.strip s = (d ++ String "/" (m ++ String "/" y))%string).
  { clear - F. revert d m y F.
    generalize (Py.strip s) as t. clear s.
    assert (G : forall t f fs, Py.split "/" t = f :: fs ->
                  t = match fs with
                      | [] => f
                      | _ => (f ++ String "/" (Py.join "/" fs))%string
                      end).
    { induction t as [|c t IH]; intros f fs; cbn [Py.split].
      - intros [= <- <-]. reflexivity.
      - destruct (Ascii.eqb_spec c "/") as [->|N].
        + intros [= <- <-]. cbn. f_equal.
          destruct (Py.split "/" t) as [|g gs] eqn:E;
            [now apply split_not_nil in E|].
          rewrite (IH g gs eq_refl). destruct gs; reflexivity.
        + destruct (Py.split "/" t) as [|g gs] eqn:E;
            [now apply split_not_nil in E|].
          intros [= <- <-]. rewrite (IH g gs eq_refl).
          destruct gs; reflexivity. }
    intros t d m y F. now rewrite (G t d [m; y] F). }
  rewrite J in CS.
  change (d ++ String "/" (m ++ String "/" y))%string
    with (d ++ "/" ++ m ++ "/" ++ y)%string in CS.
  rewrite !count_append in *. rewrite !count_zfill by reflexivity.
  cbn [Py.count Ascii.eqb Bool.eqb] in *. lia.
Qed.

Lemma isdecimal_zfill2 s : Py.isdecimal s = true -> Py.isdecimal (Py.zfill 2 s) = true.
Proof.
  intros H. destruct (zfill2_decimal s H) as [->|(c & -> & Hc & ->)];
    [assumption|]. cbn. now rewrite Hc.
Qed.

Lemma zfill2_twice s : Py.isdecimal s = true -> Py.zfill 2 (Py.zfill 2 s) = Py.zfill 2 s.
Proof.
  intros H. destruct (zfill2_decimal s H) as [E|(c & -> & Hc & E)];
    rewrite E; [exact E | reflexivity].
Qed.

(** X18: rewriting a date of decimal fields twice gives the day, the
    month and the year back in their first order, the day and the month
    padded to two digits. *)
Theorem reformat_date_string_twice d m y :
  Py.isdecimal d = true -> Py.isdecimal m = true -> Py.isdecimal y = true ->
  reformat_date_string
    (Str (reformat_date_string (Str (d ++ "/" ++ m ++ "/" ++ y))))
  = (Py.zfill 2 d ++ "/" ++ Py.zfill 2 m ++ "/" ++ y)%string.
Proof.
  intros Hd Hm Hy.
  pose proof (isdecimal_all_digits _ Hy) as Ay.
  rewrite (reformat_dmy d m y)
    by (auto using all_digits_count, isdecimal_all_digits).
  rewrite (lstrip_decimal d Hd), (rstrip_all_digits y Ay).
  rewrite (reformat_dmy (Py.zfill 2 m) (Py.zfill 2 d) y)
    by (auto using all_digits_count, zfill2_all_digits).
  rewrite (lstrip_decimal _ (isdecimal_zfill2 m Hm)), (rstrip_all_digits y Ay).
  now rewrite (zfill2_twice d Hd), (zfill2_twice m Hm).
Qed.

End DateMore.

(** ** Frames *)

Section FrameFacts.

Local Open Scope nat_scope.
Local Open Scope list_scope.

Lemma lookup_assign_same name vals d :
  lookup name (assign name vals d) = Some vals.
Proof.
  induction d as [|[k c] d IH]; simpl.
  - now rewrite String.eqb_refl.
  - destruct (String.eqb k name) eqn:E; simpl; now rewrite E.
Qed.

Lemma lookup_assign_other name other vals d :
  other <> name -> lookup other (assign name vals d) = lookup other d.
Proof.
  intros N. induction d as [|[k c] d IH]; simpl.
  - destruct (String.eqb_spec name other); congruence.
  - destruct (String.eqb_spec k name) as [->|]; simpl.
    + destruct (String.eqb_spec name other); congruence.
    + now rewrite IH.
Qed.

Lemma columns_assign_present name vals d :
  In name (map fst d) -> map fst (assign name vals d) = map fst d.
Proof.
  induction d as [|[k c] d IH]; simpl; [tauto|].
  destruct (String.eqb_spec k name) as [->|N]; simpl; [reflexivity|].
  intros [E|I]; [congruence | now rewrite IH].
Qed.

Lemma lookup_map_cells (f : list cell -> list cell) name d :
  lookup name (map (fun kc => (fst kc, f (snd kc))) d)
  = option_map f (lookup name d).
Proof.
  induction d as [|[k c] d IH]; simpl; [reflexivity|].
  destruct (String.eqb k name); [reflexivity | exact IH].
Qed.

Lemma has_column_lookup df name :
  has_column df name = true <-> exists c, lookup name (data df) = Some c.
Proof.
  unfold has_column, columns. induction (data df) as [|[k c] d IH]; simpl.
  - split; [discriminate | intros [? ?]; discriminate].
  - rewrite String.eqb_sym. destruct (String.eqb k name); simpl.
    + split; eauto.
    + exact IH.
Qed.

Lemma has_column_In df name :
  has_column df name = true <-> In name (columns df).
Proof.
  unfold has_column. rewrite existsb_exists. split.
  - intros (x & I & E). apply String.eqb_eq in E. now subst.
  - intros I. exists name. split; [assumption | apply String.eqb_refl].
Qed.

(** A column of the frame of a table has one cell per record. *)
Lemma frame_of_table_column_length t name c :
  lookup name (data (frame_of_table t)) = Some c ->
  length c = length (records t).
Proof.
  unfold frame_of_table. simpl.
  induction (seq 0 (length (header t))) as [|j js IH]; simpl; [discriminate|].
  destruct (String.eqb _ name).
  - intros [= <-]. now rewrite length_map.
  - exact IH.
Qed.

Lemma columns_frame_of_table t : columns (frame_of_table t) = header t.
Proof.
  unfold columns, frame_of_table. simpl. rewrite map_map. simpl.
  apply nth_ext with (d := EmptyString) (d' := EmptyString).
  - now rewrite length_map, length_seq.
  - intros n Hn. rewrite length_map, length_seq in Hn.
    rewrite (nth_indep _ EmptyString (nth 0 (header t) EmptyString))
      by now rewrite length_map, length_seq.
    rewrite (map_nth (fun j => nth j (header t) EmptyString)).
    now rewrite seq_nth.
Qed.

(** *** Masks *)

Lemma compress_map {A B : Type} (f : A -> B) mask l :
  compress mask (map f l) = map f (compress mask l).
Proof.
  revert l. induction mask as [|b mask IH]; intros [|x l]; simpl; auto.
  destruct b; simpl; now rewrite IH.
Qed.

Lemma compress_filter {A : Type} (p : A -> bool) l :
  compress (map p l) l = filter p l.
Proof.
  induction l as [|x l IH]; simpl; [reflexivity|].
  destruct (p x); now rewrite IH.
Qed.

Lemma compress_length {A : Type} mask (l : list A) :
  length (compress mask l) <= length l.
Proof.
  revert l. induction mask as [|b mask IH]; intros [|x l]; simpl; try lia.
  specialize (IH l). destruct b; simpl; lia.
Qed.

Lemma compress_seq_In mask a i :
  In i (compress mask (seq a (length mask)))
  <-> a <= i < a + length mask /\ nth (i - a) mask false = true.
Proof.
  revert a. induction mask as [|b mask IH]; intros a; simpl.
  - split; [tauto | lia].
  - assert (R : In i (compress mask (seq (S a) (length mask)))
                <-> a < i < S a + length mask
                    /\ nth (i - S a) mask false = true)
      by (rewrite IH; split; intros [? ?]; split; auto; lia).
    destruct (Nat.eq_dec i a) as [->|N].
    + rewrite Nat.sub_diag. destruct b; simpl.
      * split; [intros _; split; [lia | reflexivity] | auto].
      * rewrite R. split; [lia | intros [_ ?]; discriminate].
    + assert (E : i - a = S (i - S a) \/ i < a) by lia.
      destruct b; simpl; rewrite R.
      * split.
        -- intros [?|[? ?]]; [congruence|].
           destruct E as [->|]; [split; [lia | assumption] | lia].
        -- intros [? H]. right.
           destruct E as [E|]; [rewrite E in H; split; [lia | assumption] | lia].
      * split.
        -- intros [? ?]. destruct E as [->|]; [split; [lia | assumption] | lia].
        -- intros [? H].
           destruct E as [E|]; [rewrite E in H; split; [lia | assumption] | lia].
Qed.

Lemma compress_seq_NoDup mask a n : NoDup (compress mask (seq a n)).
Proof.
  revert a n. induction mask as [|b mask IH]; intros a [|n]; simpl;
    try constructor.
  destruct b; [|apply IH].
  constructor; [|apply IH].
  intros I.
  assert (forall m k x, In x (compress m (seq (S a) k)) -> a < x) as L.
  { clear. intros m. revert a. induction m as [|b m IH]; intros a [|k] x;
      simpl; try tauto.
    destruct b; simpl; [intros [<-|I]; [lia|] |]; intros;
      match goal with H : In _ _ |- _ => apply IH in H; lia end. }
  apply L in I. lia.
Qed.

(** The cells a mask keeps are the cells at the labels it keeps. *)
Lemma compress_by_labels {A : Type} (d : A) mask l a :
  compress mask l
  = map (fun i => nth (i - a) l d) (compress mask (seq a (length l))).
Proof.
  revert l a. induction mask as [|b mask IH]; intros [|x l] a;
    try reflexivity.
  assert (E : map (fun i => nth (i - a) (x :: l) d)
                  (compress mask (seq (S a) (length l)))
              = map (fun i => nth (i - S a) l d)
                  (compress mask (seq (S a) (length l)))).
  { apply map_ext_in. intros i I.
    assert (S a <= i).
    { clear - I. revert I. generalize (length l) as k. generalize (S a) as s.
      induction mask as [|b mask IH]; intros s [|k]; simpl; try tauto.
      destruct b; simpl; [intros [<-|I]; [lia|] | intros I];
        apply IH in I; lia. }
    replace (i - a) with (S (i - S a)) by lia. reflexivity. }
  destruct b; cbn [compress seq length map];
    rewrite ?Nat.sub_diag, E, <- IH; reflexivity.
Qed.

Lemma map_nth_seq {A : Type} (d : A) l :
  map (fun i => nth i l d) (seq 0 (length l)) = l.
Proof.
  apply nth_ext with (d := d) (d' := d).
  - now rewrite length_map, length_seq.
  - intros n Hn. rewrite length_map, length_seq in Hn.
    rewrite (nth_indep _ d (nth 0 l d)) by now rewrite length_map, length_seq.
    rewrite (map_nth (fun i => nth i l d)). now rewrite seq_nth.
Qed.

(** In a list without repetition, an entry that stands before another has
    the smaller position. *)
Lemma before_positions {A : Type} (x y : A) l :
  before x y l -> NoDup l ->
  forall n m, nth_error l n = Some x -> nth_error l m = Some y -> n < m.
Proof.
  intros (l1 & l2 & l3 & ->) N n m Hn Hm.
  assert (X : nth_error (l1 ++ x :: l2 ++ y :: l3) (length l1) = Some x).
  { rewrite nth_error_app2, Nat.sub_diag by lia. reflexivity. }
  assert (Y : nth_error (l1 ++ x :: l2 ++ y :: l3) (length l1 + S (length l2))
              = Some y).
  { rewrite nth_error_app2 by lia.
    replace (length l1 + S (length l2) - length l1) with (S (length l2)) by lia.
    cbn [nth_error]. rewrite nth_error_app2, Nat.sub_diag by lia. reflexivity. }
  rewrite NoDup_nth_error in N.
  assert (n = length l1).
  { apply N; [apply nth_error_Some; congruence | congruence]. }
  assert (m = length l1 + S (length l2)).
  { apply N; [apply nth_error_Some; congruence | congruence]. }
  lia.
Qed.

End FrameFacts.

(** ** The pipeline of [process_csv] *)

Section PipelineFacts.

Local Open Scope nat_scope.
Local Open Scope list_scope.

Variable read_csv : string -> result Table.
Variable to_datetime : list cell -> result (list (option Z)).
Variable argsort : list Z -> list nat.
Variable key_error_text : list string -> string.

(** The parser returns a series as long as the one it is given. *)
Hypothesis to_datetime_length :
  forall series parsed,
    to_datetime series = Ok parsed -> length parsed = length series.

Hypothesis argsort_meets_contract : argsort_contract argsort.

Lemma argsort_In keys j : In j (argsort keys) -> j < length keys.
Proof.
  intros I. destruct argsort_meets_contract as [P _].
  apply (Permutation_in _ (P keys)) in I. apply in_seq in I. lia.
Qed.

Lemma argsort_length keys : length (argsort keys) = length keys.
Proof.
  destruct argsort_meets_contract as [P _].
  rewrite (Permutation_length (P keys)). apply length_seq.
Qed.

Lemma mask_of_months target_month parsed :
  map (eq_int target_month) (map dt_month (map date_cell parsed))
  = map (month_is target_month) parsed.
Proof.
  rewrite !map_map. apply map_ext. now intros [ns|].
Qed.

Lemma kept_cells target_month parsed :
  compress (map (month_is target_month) parsed) (map date_cell parsed)
  = map Timestamp (kept_stamps target_month parsed).
Proof.
  rewrite compress_map, compress_filter.
  induction parsed as [|[ns|] parsed IH]; simpl; auto.
  destruct (Calendar.month ns =? target_month)%Z; simpl; now rewrite IH.
Qed.

Lemma kept_dates target_month parsed :
  map (fun i => nth i parsed None) (kept_labels target_month parsed)
  = map Some (kept_stamps target_month parsed).
Proof.
  unfold kept_labels.
  rewrite <- (map_ext (fun i => nth (i - 0) parsed None))
    by (intros; now rewrite Nat.sub_0_r).
  rewrite <- compress_by_labels, compress_filter.
  induction parsed as [|[ns|] parsed IH]; simpl; auto.
  destruct (Calendar.month ns =? target_month)%Z; simpl; now rewrite IH.
Qed.

Lemma kept_lengths target_month parsed :
  length (kept_labels target_month parsed)
  = length (kept_stamps target_month parsed).
Proof.
  rewrite <- (length_map (fun i => nth i parsed None)), kept_dates.
  apply length_map.
Qed.

(** Sorting a frame by a column of timestamps takes its rows in the order
    of the sorting permutation. *)
Lemma sort_values_timestamps df name stamps :
  lookup name (data df) = Some (map Timestamp stamps) ->
  sort_values argsort df name = Ok (take df (argsort stamps)).
Proof.
  intros L. unfold sort_values, getitem. rewrite L. cbn [bind].
  rewrite length_map.
  assert (T : forall i, i < length stamps ->
                nth i (map Timestamp stamps) NaN = Timestamp (nth i stamps 0%Z)).
  { intros i Hi. rewrite (nth_indep _ NaN (Timestamp 0%Z))
      by now rewrite length_map.
    apply (map_nth Timestamp). }
  assert (F1 : filter (fun i => negb (isna (nth i (map Timestamp stamps) NaN)))
                 (seq 0 (length stamps)) = seq 0 (length stamps)).
  { apply forallb_filter_id. apply forallb_forall. intros i I.
    apply in_seq in I. rewrite T by lia. reflexivity. }
  assert (F2 : filter (fun i => isna (nth i (map Timestamp stamps) NaN))
                 (seq 0 (length stamps)) = []).
  { rewrite <- (filter_false (seq 0 (length stamps))). apply filter_ext_in.
    intros i I. apply in_seq in I. rewrite T by lia. reflexivity. }
  rewrite F1, F2, app_nil_r.
  assert (K : map (fun i => match timestamp_value (nth i (map Timestamp stamps) NaN)
                            with Some ns => ns | None => 0%Z end)
                (seq 0 (length stamps)) = stamps).
  { transitivity (map (fun i => nth i stamps 0%Z) (seq 0 (length stamps)));
      [|apply map_nth_seq].
    apply map_ext_in. intros i I. apply in_seq in I.
    rewrite T by lia. reflexivity. }
  rewrite K. f_equal. f_equal.
  transitivity (map (fun j => j) (argsort stamps)); [|apply map_id].
  apply map_ext_in. intros j I. apply argsort_In in I. now rewrite seq_nth.
Qed.

Lemma nth_map_in_range {A B : Type} (f : A -> B) l j d d' :
  j < length l -> nth j (map f l) d' = f (nth j l d).
Proof.
  intros H. rewrite (nth_indep _ d' (f d)) by now rewrite length_map.
  apply map_nth.
Qed.

(** The stages of [process_csv] up to the sort, for a file that reads as
    [t] and has the date column: the sorted frame carries the kept labels
    in the order of the sorting permutation, and under every label of the
    input the cells of the rows it carries. *)
Lemma process_csv_stages csv_file target_month t dates parsed :
  read_csv csv_file = Ok t ->
  lookup "Campaign Data 16" (data (frame_of_table t)) = Some dates ->
  to_datetime dates = Ok parsed ->
  exists sorted,
    index sorted
    = map (fun j => nth j (kept_labels target_month parsed) 0)
        (argsort (kept_stamps target_month parsed))
    /\ (forall name c,
          name <> "parsed_date"%string -> name <> "parsed_month"%string ->
          lookup name (data (frame_of_table t)) = Some c ->
          lookup name (data sorted)
          = Some (map (fun i => nth i c NaN) (index sorted)))
    /\ (forall name,
          name <> "parsed_date"%string -> name <> "parsed_month"%string ->
          lookup name (data (frame_of_table t)) = None ->
          lookup name (data sorted) = None)
    /\ process_csv read_csv to_datetime argsort key_error_text
         csv_file target_month
       = match
           (filtered_df <- select key_error_text sorted COLUMNS_TO_KEEP ;;
            let filtered_df := rename filtered_df COLUMNS_TO_RENAME in
            starts <- getitem filtered_df "Monthly Donation Start Date" ;;
            Ok (setitem filtered_df "Monthly Donation Start Date"
                  (map (fun d => Str (reformat_date_string d)) starts)))
         with
         | Ok filtered_df => Ok filtered_df
         | Raise e => Raise (Exception ("Error processing CSV: " ++ str_exn e))
         end.
Proof.
  intros R D T.
  set (df2 := setitem (setitem (frame_of_table t) "parsed_date"
                         (map date_cell parsed))
                "parsed_month" (map dt_month (map date_cell parsed))).
  set (mask := map (month_is target_month) parsed).
  set (stamps := kept_stamps target_month parsed).
  assert (Ln : length parsed = length (records t)).
  { rewrite (to_datetime_length dates parsed T).
    now apply (frame_of_table_column_length t "Campaign Data 16"). }
  assert (Lk : lookup "parsed_date" (data (loc_mask df2 mask))
               = Some (map Timestamp stamps)).
  { unfold loc_mask, df2, setitem. cbn [data].
    rewrite (lookup_map_cells (compress mask)).
    rewrite lookup_assign_other by discriminate.
    rewrite lookup_assign_same. cbn [option_map].
    unfold mask, stamps. now rewrite kept_cells. }
  exists (take (loc_mask df2 mask) (argsort stamps)).
  assert (Ix : index (take (loc_mask df2 mask) (argsort stamps))
               = map (fun j => nth j (kept_labels target_month parsed) 0)
                   (argsort stamps)).
  { unfold take, loc_mask, df2, setitem, frame_of_table. cbn [index].
    unfold kept_labels. now rewrite Ln. }
  split; [exact Ix|]. split; [|split].
  - intros name c N1 N2 C. rewrite Ix.
    unfold take, loc_mask, df2, setitem. cbn [data].
    rewrite (lookup_map_cells (fun col => map (fun i => nth i col NaN) (argsort stamps))).
    rewrite (lookup_map_cells (compress mask)).
    rewrite !lookup_assign_other by assumption.
    rewrite C. cbn [option_map]. f_equal. rewrite map_map.
    apply map_ext_in. intros j I. apply argsort_In in I.
    fold stamps in I. unfold stamps in I. rewrite <- kept_lengths in I.
    rewrite (compress_by_labels NaN mask c 0).
    rewrite (frame_of_table_column_length t name c C), <- Ln.
    fold (kept_labels target_month parsed).
    rewrite (nth_map_in_range _ _ j 0) by assumption.
    now rewrite Nat.sub_0_r.
  - intros name N1 N2 C.
    unfold take, loc_mask, df2, setitem. cbn [data].
    rewrite (lookup_map_cells (fun col => map (fun i => nth i col NaN) (argsort stamps))).
    rewrite (lookup_map_cells (compress mask)).
    rewrite !lookup_assign_other by assumption.
    now rewrite C.
  - unfold process_csv. rewrite R. cbn [bind].
    assert (H : has_column (frame_of_table t) "Campaign Data 16" = true)
      by (apply has_column_lookup; eauto).
    rewrite H. cbn [negb]. unfold getitem at 1. rewrite D. cbn [bind].
    rewrite T. cbn [bind].
    unfold getitem at 1. unfold setitem at 1. cbn [data].
    rewrite lookup_assign_same. cbn [bind].
    unfold getitem at 1. unfold setitem at 1. cbn [data].
    rewrite lookup_assign_same. cbn [bind].
    rewrite mask_of_months. fold df2. fold mask.
    rewrite (sort_values_timestamps _ _ stamps Lk). cbn [bind].
    reflexivity.
Qed.

Lemma select_ok_inv df names projected :
  select key_error_text df names = Ok projected ->
  index projected = index df
  /\ data projected
     = map (fun n => (n, match lookup n (data df) with
                         | Some c => c
                         | None => []
                         end)) names
  /\ forall n, In n names -> has_column df n = true.
Proof.
  unfold select.
  destruct (filter (fun n => negb (has_column df n)) names) eqn:F;
    [|discriminate].
  intros [= <-]. repeat split.
  intros n I. destruct (has_column df n) eqn:H; [reflexivity|].
  assert (In n (filter (fun n => negb (has_column df n)) names))
    by (apply filter_In; now rewrite H).
  rewrite F in *. contradiction.
Qed.

Lemma select_ok df names :
  (forall n, In n names -> has_column df n = true) ->
  select key_error_text df names
  = Ok {| index := index df;
          data := map (fun n => (n, match lookup n (data df) with
                                    | Some c => c
                                    | None => []
                                    end)) names |}.
Proof.
  intros H. unfold select.
  destruct (filter (fun n => negb (has_column df n)) names) as [|m ms] eqn:F;
    [reflexivity|].
  assert (I : In m (filter (fun n => negb (has_column df n)) names))
    by (rewrite F; now left).
  apply filter_In in I as [I N]. rewrite (H m I) in N. discriminate.
Qed.

Lemma kept_column_not_parsed n :
  In n COLUMNS_TO_KEEP ->
  n <> "parsed_date"%string /\ n <> "parsed_month"%string.
Proof.
  unfold COLUMNS_TO_KEEP. simpl.
  intros I. repeat (destruct I as [<-|I]; [split; discriminate|]).
  contradiction.
Qed.

(** A run that returns a frame has read a table with the date column,
    and the parser has returned a series for that column. *)
Lemma process_csv_ok_reads csv_file target_month out :
  process_csv read_csv to_datetime argsort key_error_text
    csv_file target_month = Ok out ->
  exists t dates parsed,
    read_csv csv_file = Ok t
    /\ lookup "Campaign Data 16" (data (frame_of_table t)) = Some dates
    /\ to_datetime dates = Ok parsed.
Proof.
  unfold process_csv. destruct (read_csv csv_file) as [t|e]; cbn [bind];
    [|discriminate].
  destruct (has_column (frame_of_table t) "Campaign Data 16") eqn:H;
    cbn [negb]; [|discriminate].
  apply has_column_lookup in H as [dates D].
  unfold getitem at 1. rewrite D. cbn [bind].
  destruct (to_datetime dates) as [parsed|e] eqn:T; cbn [bind];
    [|discriminate].
  intros _. exists t, dates, parsed. auto.
Qed.

(** The frame [process_csv] returns: its labels, its columns, and its
    rewritten start dates. *)
Lemma process_csv_result csv_file target_month t dates parsed out :
  read_csv csv_file = Ok t ->
  lookup "Campaign Data 16" (data (frame_of_table t)) = Some dates ->
  to_datetime dates = Ok parsed ->
  process_csv read_csv to_datetime argsort key_error_text
    csv_file target_month = Ok out ->
  index out
  = map (fun j => nth j (kept_labels target_month parsed) 0)
      (argsort (kept_stamps target_month parsed))
  /\ columns out
     = map (rename_label COLUMNS_TO_RENAME) COLUMNS_TO_KEEP
  /\ lookup "Monthly Donation Start Date" (data out)
     = Some (map (fun i => Str (reformat_date_string (nth i dates NaN)))
               (index out)).
Proof.
  intros R D T H.
  destruct (process_csv_stages csv_file target_month t dates parsed R D T)
    as (sorted & Ix & Cells & _ & E).
  rewrite E in H. clear E.
  destruct (select key_error_text sorted COLUMNS_TO_KEEP) as [projected|e]
    eqn:S; cbn [bind] in H; [|discriminate].
  apply select_ok_inv in S as (Si & Sd & _).
  unfold COLUMNS_TO_KEEP in Sd. cbn [map] in Sd.
  rewrite (Cells "Campaign Data 16" dates) in Sd by (discriminate || assumption).
  unfold getitem, rename in H. cbn [data index] in H. rewrite Sd in H.
  cbn in H. injection H as <-.
  unfold setitem, columns. cbn. rewrite Si, Ix.
  repeat split. now rewrite map_map.
Qed.

(** The cells of the returned frame: under the (renamed) label of a kept
    column other than the date column, the row labelled [i] holds the cell
    the table has in row [i] of that column. *)
Lemma process_csv_cells csv_file target_month t dates out n c :
  read_csv csv_file = Ok t ->
  lookup "Campaign Data 16" (data (frame_of_table t)) = Some dates ->
  process_csv read_csv to_datetime argsort key_error_text
    csv_file target_month = Ok out ->
  In n COLUMNS_TO_KEEP -> n <> "Campaign Data 16"%string ->
  lookup n (data (frame_of_table t)) = Some c ->
  lookup (rename_label COLUMNS_TO_RENAME n) (data out)
  = Some (map (fun i => nth i c NaN) (index out)).
Proof.
  intros R D H I N C.
  destruct (process_csv_ok_reads _ _ _ H) as (t' & dates' & parsed & R' & D' & T).
  assert (t' = t) by congruence. subst t'.
  assert (dates' = dates) by congruence. subst dates'.
  destruct (process_csv_stages csv_file target_month t dates parsed R D T)
    as (sorted & Ix & Cells & _ & E).
  rewrite E in H. clear E.
  destruct (select key_error_text sorted COLUMNS_TO_KEEP) as [projected|e]
    eqn:S; cbn [bind] in H; [|discriminate].
  apply select_ok_inv in S as (Si & Sd & _).
  unfold COLUMNS_TO_KEEP in Sd. cbn [map] in Sd.
  unfold getitem, rename in H. cbn [data index] in H. rewrite Sd in H.
  cbn in H. injection H as <-.
  unfold setitem. cbn [data index]. rewrite Si.
  unfold COLUMNS_TO_KEEP in I. cbn [In] in I.
  repeat (destruct I as [<-|I];
          [try congruence; cbn;
           rewrite (Cells _ c) by (discriminate || assumption); reflexivity|]).
  contradiction.
Qed.

(** With every column of [COLUMNS_TO_KEEP] in the header and a date
    column the parser accepts, [process_csv] returns a frame. *)
Lemma process_csv_returns csv_file target_month t dates parsed :
  read_csv csv_file = Ok t ->
  (forall n, In n COLUMNS_TO_KEEP -> In n (header t)) ->
  lookup "Campaign Data 16" (data (frame_of_table t)) = Some dates ->
  to_datetime dates = Ok parsed ->
  exists out,
    process_csv read_csv to_datetime argsort key_error_text
      csv_file target_month = Ok out.
Proof.
  intros R K D T.
  assert (HK : forall n, In n COLUMNS_TO_KEEP ->
                 has_column (frame_of_table t) n = true).
  { intros n I. apply has_column_In. rewrite columns_frame_of_table. auto. }
  destruct (process_csv_stages csv_file target_month t dates parsed R D T)
    as (sorted & Ix & Cells & _ & E).
  rewrite E. clear E.
  rewrite select_ok.
  - cbn [bind]. unfold getitem, rename. cbn. eauto.
  - intros n I. apply has_column_lookup.
    destruct (proj1 (has_column_lookup _ _) (HK n I)) as [c C].
    destruct (kept_column_not_parsed n I) as [N1 N2].
    rewrite (Cells n c N1 N2 C). eauto.
Qed.

Lemma getitem_ok df name c :
  getitem df name = Ok c <-> lookup name (data df) = Some c.
Proof.
  unfold getitem. destruct (lookup name (data df)); split; congruence.
Qed.

(** The labels of the result are the kept labels, rearranged. *)
Lemma index_out_permutation target_month parsed :
  Permutation
    (map (fun j => nth j (kept_labels target_month parsed) 0)
       (argsort (kept_stamps target_month parsed)))
    (kept_labels target_month parsed).
Proof.
  destruct argsort_meets_contract as [P _].
  eapply Permutation_trans; [apply Permutation_map, P|].
  rewrite <- kept_lengths, map_nth_seq. apply Permutation_refl.
Qed.

Lemma kept_labels_In target_month parsed i :
  In i (kept_labels target_month parsed)
  <-> i < length parsed
      /\ option_map Calendar.month (nth i parsed None) = Some target_month.
Proof.
  unfold kept_labels.
  rewrite <- (length_map (month_is target_month) parsed) at 1.
  rewrite compress_seq_In, length_map, Nat.sub_0_r.
  change false with (month_is target_month None).
  rewrite (map_nth (month_is target_month)).
  destruct (nth i parsed None) as [ns|]; simpl.
  - rewrite Z.eqb_eq. split; intros [? ?]; split; try lia; congruence.
  - split; intros [? ?]; discriminate.
Qed.

(** C1: when [process_csv] returns a frame for a table with the date
    column, the parser has returned a series for that column, and the frame
    holds the row labelled [i] if and only if [i] is a row of the table
    whose date the parser reads with the target month; a row whose date the
    parser does not read is never in it; no row is in it twice, and it has
    at most as many rows as the table. *)
Theorem process_csv_keeps_target_month csv_file target_month t dates out :
  read_csv csv_file = Ok t ->
  getitem (frame_of_table t) "Campaign Data 16" = Ok dates ->
  process_csv read_csv to_datetime argsort key_error_text
    csv_file target_month = Ok out ->
  exists parsed,
    to_datetime dates = Ok parsed
    /\ (forall i,
          In i (index out)
          <-> i < length (records t)
              /\ option_map Calendar.month (nth i parsed None)
                 = Some target_month)
    /\ (forall i, nth i parsed None = None -> ~ In i (index out))
    /\ NoDup (index out)
    /\ len out <= length (records t).
Proof.
  intros R D H. apply getitem_ok in D.
  destruct (process_csv_ok_reads _ _ _ H) as (t' & dates' & parsed & R' & D' & T).
  assert (t' = t) by congruence. subst t'.
  assert (dates' = dates) by congruence. subst dates'.
  exists parsed. split; [exact T|].
  destruct (process_csv_result _ _ _ _ _ _ R D T H) as (Ix & _ & _).
  pose proof (index_out_permutation target_month parsed) as P.
  rewrite <- Ix in P.
  assert (Ln : length parsed = length (records t)).
  { rewrite (to_datetime_length dates parsed T).
    now apply (frame_of_table_column_length t "Campaign Data 16"). }
  assert (M : forall i,
             In i (index out)
             <-> i < length (records t)
                 /\ option_map Calendar.month (nth i parsed None)
                    = Some target_month).
  { intros i. rewrite <- Ln, <- kept_labels_In. split.
    - apply Permutation_in, P.
    - apply Permutation_in, Permutation_sym, P. }
  split; [exact M|]. split; [|split].
  - intros i N I. apply M in I as [_ I]. rewrite N in I. discriminate.
  - apply (Permutation_NoDup (Permutation_sym P)).
    unfold kept_labels. apply compress_seq_NoDup.
  - unfold len. rewrite (Permutation_length P). unfold kept_labels.
    etransitivity; [apply compress_length|]. now rewrite length_seq, Ln.
Qed.

(** C5, as the code has it: the rows of the returned frame stand in
    non-decreasing order of the dates the parser read for them.  (The order
    of rows with equal dates is the sorting permutation's own.) *)
Theorem process_csv_sorted_by_date csv_file target_month t dates out :
  read_csv csv_file = Ok t ->
  getitem (frame_of_table t) "Campaign Data 16" = Ok dates ->
  process_csv read_csv to_datetime argsort key_error_text
    csv_file target_month = Ok out ->
  exists parsed stamps,
    to_datetime dates = Ok parsed
    /\ map (fun i => nth i parsed None) (index out) = map Some stamps
    /\ StronglySorted Z.le stamps.
Proof.
  intros R D H. apply getitem_ok in D.
  destruct (process_csv_ok_reads _ _ _ H) as (t' & dates' & parsed & R' & D' & T).
  assert (t' = t) by congruence. subst t'.
  assert (dates' = dates) by congruence. subst dates'.
  destruct (process_csv_result _ _ _ _ _ _ R D T H) as (Ix & _ & _).
  set (S := kept_stamps target_month parsed) in *.
  exists parsed, (map (fun j => nth j S 0%Z) (argsort S)).
  split; [exact T|]. split.
  - rewrite Ix, !map_map. apply map_ext_in. intros j I.
    apply argsort_In in I.
    rewrite <- (nth_map_in_range (fun i => nth i parsed None) _ j 0 None)
      by (unfold S in I; now rewrite kept_lengths).
    rewrite kept_dates. fold S.
    now rewrite (nth_map_in_range Some S j 0%Z None).
  - apply argsort_meets_contract.
Qed.

(** C2: a table with the kept columns whose start dates are 5/3/2024,
    20/3/2024 and 1/4/2024, read day first, gives for month 3 a frame of
    two rows: the first row and then the second, with the start dates
    03/05/2024 and 03/20/2024. *)
Theorem process_csv_march_scenario csv_file t :
  read_csv csv_file = Ok t ->
  (forall n, In n COLUMNS_TO_KEEP -> In n (header t)) ->
  getitem (frame_of_table t) "Campaign Data 16"
  = Ok [Str "5/3/2024"; Str "20/3/2024"; Str "1/4/2024"] ->
  to_datetime [Str "5/3/2024"; Str "20/3/2024"; Str "1/4/2024"]
  = Ok [Some (Calendar.midnight 2024 3 5); Some (Calendar.midnight 2024 3 20);
        Some (Calendar.midnight 2024 4 1)] ->
  exists out,
    process_csv read_csv to_datetime argsort key_error_text csv_file 3 = Ok out
    /\ len out = 2
    /\ index out = [0; 1]
    /\ getitem out "Monthly Donation Start Date"
       = Ok [Str "03/05/2024"; Str "03/20/2024"].
Proof.
  intros R K D T. apply getitem_ok in D.
  destruct (process_csv_returns csv_file 3%Z t _ _ R K D T) as [out H].
  exists out. split; [exact H|].
  destruct (process_csv_result _ _ _ _ _ _ R D T H) as (Ix & _ & St).
  change (kept_labels 3 _) with [0; 1] in Ix.
  change (kept_stamps 3 _)
    with [Calendar.midnight 2024 3 5; Calendar.midnight 2024 3 20] in Ix.
  destruct argsort_meets_contract as [P Srt].
  specialize (P [Calendar.midnight 2024 3 5; Calendar.midnight 2024 3 20]).
  specialize (Srt [Calendar.midnight 2024 3 5; Calendar.midnight 2024 3 20]).
  apply Permutation_sym, Permutation_length_2_inv in P.
  assert (E : argsort [Calendar.midnight 2024 3 5; Calendar.midnight 2024 3 20]
              = [0; 1]).
  { destruct P as [P|P]; [exact P|]. exfalso. rewrite P in Srt.
    apply StronglySorted_inv in Srt as [_ F]. inversion F as [|? ? Le _].
    vm_compute in Le. now apply Le. }
  rewrite E in Ix. cbn in Ix.
  assert (St' : lookup "Monthly Donation Start Date" (data out)
                = Some [Str "03/05/2024"; Str "03/20/2024"])
    by (rewrite St, Ix; reflexivity).
  repeat split.
  - unfold len. now rewrite Ix.
  - exact Ix.
  - now apply getitem_ok.
Qed.

(** C6: the columns of a frame [process_csv] returns are the fifteen
    names of the renamed list, in its order, whatever other columns the
    input has. *)
Theorem process_csv_columns csv_file target_month out :
  process_csv read_csv to_datetime argsort key_error_text
    csv_file target_month = Ok out ->
  columns out
  = ["Supporter ID"; "Supporter Email"; "Campaign ID";
     "Organization or Company"; "First Name"; "Last Name"; "Partner Name";
     "Address 1"; "City"; "State"; "ZIP Code"; "Raisers Edge Constituent ID";
     "Assigned Region"; "Donation Amount"; "Monthly Donation Start Date"]%string.
Proof.
  unfold process_csv. intros H.
  repeat match type of H with
         | context [bind ?r _] =>
             let E := fresh "E" in
             destruct r eqn:E; cbn [bind] in H; [|discriminate]
         | context [if ?b then _ else _] => destruct b; [discriminate|]
         end.
  match goal with
  | S : select _ _ _ = Ok _ |- _ => apply select_ok_inv in S as (_ & Sd & _)
  end.
  injection H as <-. unfold setitem, rename, columns. cbn [data].
  rewrite columns_assign_present; rewrite Sd; rewrite !map_map; cbn;
    [reflexivity | tauto].
Qed.

(** With the date column missing from the header, [process_csv] raises
    the wrapped [ValueError]. *)
Lemma process_csv_without_date_column csv_file target_month t :
  read_csv csv_file = Ok t ->
  ~ In "Campaign Data 16"%string (header t) ->
  process_csv read_csv to_datetime argsort key_error_text
    csv_file target_month
  = Raise (Exception
      "Error processing CSV: Column 'Campaign Data 16' not found in CSV file").
Proof.
  intros R N. unfold process_csv. rewrite R. cbn [bind].
  destruct (has_column (frame_of_table t) "Campaign Data 16") eqn:H.
  - apply has_column_In in H. rewrite columns_frame_of_table in H.
    contradiction.
  - reflexivity.
Qed.

End PipelineFacts.

(** ** The reference instances meet what the program asks of them *)

Section ReferenceFacts.

Local Open Scope list_scope.

Lemma ref_insert_permutation after_ties k i l :
  Permutation (Ref.insert after_ties k i l) ((k, i) :: l).
Proof.
  induction l as [|[k' i'] l IH]; simpl; [apply Permutation_refl|].
  destruct (if after_ties then (k <? k')%Z else (k <=? k')%Z).
  - apply Permutation_refl.
  - eapply Permutation_trans; [apply perm_skip, IH | apply perm_swap].
Qed.

Lemma ref_insertion_sort_permutation after_ties l :
  Permutation (Ref.insertion_sort after_ties l) l.
Proof.
  induction l as [|[k i] l IH]; simpl; [apply Permutation_refl|].
  eapply Permutation_trans; [apply ref_insert_permutation|].
  now apply perm_skip.
Qed.

Lemma ref_insert_sorted after_ties k i l :
  StronglySorted by_key l ->
  StronglySorted by_key (Ref.insert after_ties k i l).
Proof.
  induction l as [|[k' i'] l IH]; intros S; simpl.
  - repeat constructor.
  - apply StronglySorted_inv in S as [S F].
    destruct (if after_ties then (k <? k')%Z else (k <=? k')%Z) eqn:E.
    + assert (Le : (k <= k')%Z) by (destruct after_ties; lia).
      constructor; [now constructor|].
      constructor; [exact Le|].
      eapply Forall_impl; [|exact F]. unfold by_key. simpl. intros; lia.
    + assert (Le : (k' <= k)%Z) by (destruct after_ties; lia).
      constructor; [auto|].
      apply (Permutation_Forall
               (Permutation_sym (ref_insert_permutation after_ties k i l))).
      constructor; [exact Le | exact F].
Qed.

Lemma ref_insertion_sort_sorted after_ties l :
  StronglySorted by_key (Ref.insertion_sort after_ties l).
Proof.
  induction l as [|[k i] l IH]; simpl; [constructor|].
  now apply ref_insert_sorted.
Qed.

Lemma map_snd_combine_seq (keys : list Z) a :
  map snd (combine keys (seq a (length keys))) = seq a (length keys).
Proof.
  revert a. induction keys as [|k keys IH]; intros a; simpl; [reflexivity|].
  now rewrite IH.
Qed.

Lemma combine_seq_key (keys : list Z) a p :
  In p (combine keys (seq a (length keys))) ->
  (a <= snd p)%nat /\ nth (snd p - a) keys 0%Z = fst p.
Proof.
  revert a. induction keys as [|k keys IH]; intros a; simpl; [tauto|].
  intros [<-|I]; simpl.
  - rewrite Nat.sub_diag. split; [lia | reflexivity].
  - apply IH in I as [L E]. split; [lia|].
    replace (snd p - a)%nat with (S (snd p - S a)) by lia. exact E.
Qed.

Lemma sorted_by_key_fst l :
  StronglySorted by_key l -> StronglySorted Z.le (map fst l).
Proof.
  induction 1 as [|p l S IH F]; simpl; constructor; auto.
  apply Forall_map. exact F.
Qed.

Lemma ref_argsort_contract after_ties :
  argsort_contract
    (fun keys =>
       map snd (Ref.insertion_sort after_ties
                  (combine keys (seq 0 (length keys))))).
Proof.
  split; intros keys.
  - rewrite <- (map_snd_combine_seq keys 0) at 2.
    apply Permutation_map, ref_insertion_sort_permutation.
  - rewrite map_map.
    rewrite (map_ext_in _ fst).
    + apply sorted_by_key_fst, ref_insertion_sort_sorted.
    + intros p I.
      apply (Permutation_in _ (ref_insertion_sort_permutation after_ties _)) in I.
      apply combine_seq_key in I as [_ E]. now rewrite Nat.sub_0_r in E.
Qed.

Lemma ref_argsort_stable_contract : argsort_contract Ref.argsort_stable.
Proof. exact (ref_argsort_contract false). Qed.

Lemma ref_argsort_reversing_contract : argsort_contract Ref.argsort_reversing.
Proof. exact (ref_argsort_contract true). Qed.

Lemma ref2_to_datetime_iso_length series parsed :
  Ref2.to_datetime_iso series = Ok parsed -> length parsed = length series.
Proof. intros [= <-]. apply length_map. Qed.

Lemma ref_to_datetime_length series parsed :
  Ref.to_datetime series = Ok parsed -> length parsed = length series.
Proof. intros [= <-]. apply length_map. Qed.

End ReferenceFacts.

(** ** The writer and the command line *)

Section CliFacts.

Local Open Scope list_scope.

Variable read_csv : string -> result Table.
Variable to_datetime : list cell -> result (list (option Z)).
Variable argsort : list Z -> list nat.
Variable key_error_text : list string -> string.
Variable path_exists : string -> bool.
Variable to_csv : string -> DataFrame -> option exn.

Lemma month_name_outside target_month :
  (target_month < 1 \/ 12 < target_month)%Z -> month_name target_month = None.
Proof.
  intros H. unfold month_name, MONTH_NAMES. cbn [month_name_in].
  repeat match goal with
         | |- context [(?k =? target_month)%Z] =>
             destruct (Z.eqb_spec k target_month); [lia|]
         end.
  reflexivity.
Qed.

Lemma month_name_inside target_month :
  (1 <= target_month <= 12)%Z ->
  exists name, month_name target_month = Some name.
Proof.
  intros H.
  assert (C : (target_month = 1 \/ target_month = 2 \/ target_month = 3
               \/ target_month = 4 \/ target_month = 5 \/ target_month = 6
               \/ target_month = 7 \/ target_month = 8 \/ target_month = 9
               \/ target_month = 10 \/ target_month = 11
               \/ target_month = 12)%Z) by lia.
  repeat (destruct C as [->|C]; [eexists; reflexivity|]).
  subst. eexists; reflexivity.
Qed.

(** C10: for a month outside 1..12 [save_filtered_csv] raises the
    [KeyError] of the month-name lookup and leaves the world as it was: no
    file name is built and nothing is written. *)
Theorem save_filtered_csv_outside_months filtered_df target_month output_dir w :
  (target_month < 1 \/ 12 < target_month)%Z ->
  save_filtered_csv to_csv filtered_df target_month output_dir w
  = (Raise (KeyError (Py.str_int target_month)), w).
Proof.
  intros H. unfold save_filtered_csv.
  now rewrite (month_name_outside target_month H).
Qed.

(** Inside 1..12 the writer does write, under the month's file name. *)
Lemma save_filtered_csv_inside_months filtered_df target_month output_dir w :
  (1 <= target_month <= 12)%Z ->
  exists name r,
    month_name target_month = Some name
    /\ save_filtered_csv to_csv filtered_df target_month output_dir w
       = (r, {| stdin := stdin w;
                trace := trace w
                         ++ [ToCsv (Py.path_join output_dir
                                      (name ++ " New EN Monthly Donors.csv"))
                               filtered_df] |}).
Proof.
  intros H. destruct (month_name_inside target_month H) as [name E].
  unfold save_filtered_csv. rewrite E.
  unfold bindM, emit, raiseM, ret. cbn [stdin trace].
  destruct (to_csv _ filtered_df); eauto.
Qed.



(** C9, as the code has it: when the month argument is not a number, or
    is a number outside 1..12, the run prints its banner, asks whether the
    input path exists, prints one message and returns: the existence check
    is the only file operation, it comes before the month is looked at,
    and the file is neither read nor is anything written. *)
Theorem run_cli_rejects_bad_month prog csv_file month rest w :
  (Py.int month = None
   \/ exists m, Py.int month = Some m /\ (m < 1 \/ 12 < m)%Z) ->
  exists message,
    run_cli read_csv to_datetime argsort key_error_text path_exists to_csv
      (prog :: csv_file :: month :: rest) w
    = (Ok tt,
       {| stdin := stdin w;
          trace := trace w
                   ++ [Print "CLI Mode"; Print (Py.replicate 40 "=");
                       PathExists csv_file; Print message] |}).
Proof.
  intros B. destruct w as [sin tr].
  unfold run_cli, cli_month, bindM, print, emit, ret, try_except, lift, raiseM.
  cbn [stdin trace].
  destruct (path_exists csv_file); cbn [negb].
  - destruct B as [->|(m & -> & O)].
    + eexists. cbn [stdin trace]. rewrite <- !app_assoc. reflexivity.
    + assert (E : ((m <? 1) || (12 <? m))%Z = true).
      { apply orb_true_iff. rewrite !Z.ltb_lt. exact O. }
      rewrite E. eexists. cbn [stdin trace]. rewrite <- !app_assoc. reflexivity.
  - eexists. cbn [stdin trace]. rewrite <- !app_assoc. reflexivity.
Qed.

End CliFacts.

(** ** More on [process_csv]: its failures and the frame it returns *)

Section PipelineMore.

Local Open Scope nat_scope.
Local Open Scope list_scope.

Variable read_csv : string -> result Table.
Variable to_datetime : list cell -> result (list (option Z)).
Variable argsort : list Z -> list nat.
Variable key_error_text : list string -> string.

Hypothesis to_datetime_length :
  forall series parsed,
    to_datetime series = Ok parsed -> length parsed = length series.

Hypothesis argsort_meets_contract : argsort_contract argsort.

Lemma has_column_header t n :
  has_column (frame_of_table t) n = existsb (String.eqb n) (header t).
Proof. unfold has_column. now rewrite columns_frame_of_table. Qed.

(** Sorting and masking neither add nor drop a kept column. *)
Lemma sorted_has_kept_column t sorted n :
  (forall name c,
     name <> "parsed_date"%string -> name <> "parsed_month"%string ->
     lookup name (data (frame_of_table t)) = Some c ->
     lookup name (data sorted)
     = Some (map (fun i => nth i c NaN) (index sorted))) ->
  (forall name,
     name <> "parsed_date"%string -> name <> "parsed_month"%string ->
     lookup name (data (frame_of_table t)) = None ->
     lookup name (data sorted) = None) ->
  In n COLUMNS_TO_KEEP ->
  has_column sorted n = has_column (frame_of_table t) n.
Proof.
  intros Cells Missing I.
  destruct (kept_column_not_parsed n I) as [N1 N2].
  destruct (lookup n (data (frame_of_table t))) as [c|] eqn:L.
  - transitivity true; [|symmetry]; apply has_column_lookup; eauto.
  - destruct (has_column sorted n) eqn:H1.
    + apply has_column_lookup in H1 as [c C].
      rewrite (Missing n N1 N2 L) in C. discriminate.
    + destruct (has_column (frame_of_table t) n) eqn:H2; [|reflexivity].
      apply has_column_lookup in H2 as [c C]. congruence.
Qed.

Lemma select_filter_header t sorted :
  (forall name c,
     name <> "parsed_date"%string -> name <> "parsed_month"%string ->
     lookup name (data (frame_of_table t)) = Some c ->
     lookup name (data sorted)
     = Some (map (fun i => nth i c NaN) (index sorted))) ->
  (forall name,
     name <> "parsed_date"%string -> name <> "parsed_month"%string ->
     lookup name (data (frame_of_table t)) = None ->
     lookup name (data sorted) = None) ->
  filter (fun n => negb (has_column sorted n)) COLUMNS_TO_KEEP
  = missing_columns t.
Proof.
  intros Cells Missing. unfold missing_columns. apply filter_ext_in.
  intros n I.
  now rewrite (sorted_has_kept_column t sorted n Cells Missing I),
    has_column_header.
Qed.

(** X1: [process_csv] returns a frame exactly for a file that reads as a
    table whose header has every column of [COLUMNS_TO_KEEP] and whose
    date column the parser accepts; the month plays no part in it. *)
Theorem process_csv_returns_iff csv_file target_month :
  (exists out,
     process_csv read_csv to_datetime argsort key_error_text
       csv_file target_month = Ok out)
  <-> exists t dates parsed,
        read_csv csv_file = Ok t
        /\ (forall n, In n COLUMNS_TO_KEEP -> In n (header t))
        /\ getitem (frame_of_table t) "Campaign Data 16" = Ok dates
        /\ to_datetime dates = Ok parsed.
Proof.
  split.
  - intros [out H].
    destruct (process_csv_ok_reads _ _ _ _ _ _ _ H)
      as (t & dates & parsed & R & D & T).
    exists t, dates, parsed. split; [exact R|].
    split; [|split; [now apply getitem_ok | exact T]].
    intros n I.
    destruct (process_csv_stages read_csv to_datetime argsort key_error_text
                to_datetime_length argsort_meets_contract
                csv_file target_month t dates parsed R D T)
      as (sorted & _ & Cells & Missing & E).
    rewrite E in H.
    destruct (select key_error_text sorted COLUMNS_TO_KEEP) as [p|e] eqn:S;
      cbn [bind] in H; [|discriminate].
    apply select_ok_inv in S as (_ & _ & K).
    specialize (K n I).
    rewrite (sorted_has_kept_column t sorted n Cells Missing I) in K.
    apply has_column_In in K. now rewrite columns_frame_of_table in K.
  - intros (t & dates & parsed & R & K & D & T). apply getitem_ok in D.
    now apply (process_csv_returns read_csv to_datetime argsort key_error_text
                 to_datetime_length argsort_meets_contract)
      with (t := t) (dates := dates) (parsed := parsed).
Qed.

(** X2: when the table has the date column, the parser accepts it, and
    the header lacks other kept columns, [process_csv] raises the
    [KeyError] of the projection, wrapped: its text names exactly the kept
    columns the header lacks, in the order of [COLUMNS_TO_KEEP]. *)
Theorem process_csv_missing_kept_columns csv_file target_month t dates parsed
  m ms :
  read_csv csv_file = Ok t ->
  getitem (frame_of_table t) "Campaign Data 16" = Ok dates ->
  to_datetime dates = Ok parsed ->
  filter (fun n => negb (existsb (String.eqb n) (header t))) COLUMNS_TO_KEEP
  = m :: ms ->
  process_csv read_csv to_datetime argsort key_error_text
    csv_file target_month
  = Raise (Exception
      ("Error processing CSV: " ++ key_error_text (m :: ms))).
Proof.
  intros R D T F. apply getitem_ok in D.
  destruct (process_csv_stages read_csv to_datetime argsort key_error_text
              to_datetime_length argsort_meets_contract
              csv_file target_month t dates parsed R D T)
    as (sorted & _ & Cells & Missing & E).
  rewrite E. unfold select.
  rewrite (select_filter_header t sorted Cells Missing).
  unfold missing_columns. rewrite F. reflexivity.
Qed.

(** X3: the four ways [process_csv] fails, and no other: the reader
    raised; the header lacks the date column; the parser raised on the date
    column; the header lacks another kept column.  What it raises is always
    an [Exception] whose text starts with the same words, followed by the
    text of what was raised inside. *)
Theorem process_csv_failures csv_file target_month e :
  process_csv read_csv to_datetime argsort key_error_text
    csv_file target_month = Raise e ->
  (exists e0,
     read_csv csv_file = Raise e0
     /\ e = Exception ("Error processing CSV: " ++ str_exn e0))
  \/ (exists t,
        read_csv csv_file = Ok t
        /\ ~ In "Campaign Data 16"%string (header t)
        /\ e = Exception
             "Error processing CSV: Column 'Campaign Data 16' not found in CSV file")
  \/ (exists t dates e0,
        read_csv csv_file = Ok t
        /\ getitem (frame_of_table t) "Campaign Data 16" = Ok dates
        /\ to_datetime dates = Raise e0
        /\ e = Exception ("Error processing CSV: " ++ str_exn e0))
  \/ (exists t dates parsed m ms,
        read_csv csv_file = Ok t
        /\ getitem (frame_of_table t) "Campaign Data 16" = Ok dates
        /\ to_datetime dates = Ok parsed
        /\ filter (fun n => negb (existsb (String.eqb n) (header t)))
             COLUMNS_TO_KEEP = m :: ms
        /\ e = Exception
             ("Error processing CSV: " ++ key_error_text (m :: ms))).
Proof.
  intros H.
  destruct (read_csv csv_file) as [t|e0] eqn:R.
  2: { left. exists e0. split; [reflexivity|].
       unfold process_csv in H. rewrite R in H. cbn [bind] in H. congruence. }
  right.
  destruct (has_column (frame_of_table t) "Campaign Data 16") eqn:HC.
  - right. pose proof HC as HL.
    apply has_column_lookup in HL as [dates D].
    destruct (to_datetime dates) as [parsed|e0] eqn:T.
    + right.
      destruct (process_csv_stages read_csv to_datetime argsort key_error_text
                  to_datetime_length argsort_meets_contract
                  csv_file target_month t dates parsed R D T)
        as (sorted & _ & Cells & Missing & E).
      rewrite E in H. unfold select in H.
      rewrite (select_filter_header t sorted Cells Missing) in H.
      unfold missing_columns in H.
      destruct (filter _ COLUMNS_TO_KEEP) as [|m ms] eqn:F.
      * cbn in H. discriminate.
      * exists t, dates, parsed, m, ms. cbn [bind str_exn] in H.
        split; [reflexivity|]. split; [now apply getitem_ok|].
        repeat split; auto. congruence.
    + left. exists t, dates, e0.
      split; [reflexivity|]. split; [now apply getitem_ok|].
      split; [exact T|].
      unfold process_csv in H. rewrite R in H. cbn [bind] in H.
      rewrite HC in H. cbn [negb] in H. unfold getitem at 1 in H.
      rewrite D in H. cbn [bind] in H. rewrite T in H. cbn [bind] in H.
      congruence.
  - left. exists t. split; [reflexivity|].
    assert (N : ~ In "Campaign Data 16"%string (header t)).
    { intros I. rewrite <- columns_frame_of_table in I.
      apply has_column_In in I. congruence. }
    split; [exact N|].
    rewrite (process_csv_without_date_column read_csv to_datetime argsort
               key_error_text csv_file target_month t R N) in H.
    congruence.
Qed.

Lemma column_of_lookup t n c :
  lookup n (data (frame_of_table t)) = Some c -> column_of t n = c.
Proof. unfold column_of. now intros ->. Qed.

Lemma process_csv_data_by_index csv_file target_month t out :
  read_csv csv_file = Ok t ->
  process_csv read_csv to_datetime argsort key_error_text
    csv_file target_month = Ok out ->
  data out
  = map (fun n =>
           (rename_label COLUMNS_TO_RENAME n,
            if String.eqb n "Campaign Data 16"
            then map (fun i => Str (reformat_date_string
                                      (nth i (column_of t n) NaN)))
                   (index out)
            else map (fun i => nth i (column_of t n) NaN) (index out)))
      COLUMNS_TO_KEEP.
Proof.
  intros R H.
  destruct (process_csv_ok_reads _ _ _ _ _ _ _ H)
    as (t' & dates & parsed & R' & D & T).
  assert (t' = t) by congruence. subst t'. clear R'.
  destruct (process_csv_stages read_csv to_datetime argsort key_error_text
              to_datetime_length argsort_meets_contract
              csv_file target_month t dates parsed R D T)
    as (sorted & Ix & Cells & Missing & E).
  rewrite E in H. clear E.
  destruct (select key_error_text sorted COLUMNS_TO_KEEP) as [projected|e]
    eqn:S; cbn [bind] in H; [|discriminate].
  apply select_ok_inv in S as (Si & Sd & K).
  assert (P : forall n, In n COLUMNS_TO_KEEP ->
                lookup n (data sorted)
                = Some (map (fun i => nth i (column_of t n) NaN)
                          (index sorted))).
  { intros n I. specialize (K n I).
    rewrite (sorted_has_kept_column t sorted n Cells Missing I) in K.
    apply has_column_lookup in K as [c C].
    destruct (kept_column_not_parsed n I) as [N1 N2].
    now rewrite (Cells n c N1 N2 C), (column_of_lookup t n c C). }
  rewrite (map_ext_in _ (fun n => (n, map (fun i => nth i (column_of t n) NaN)
                                        (index sorted)))) in Sd
    by (intros n I; now rewrite (P n I)).
  unfold COLUMNS_TO_KEEP in Sd. cbn [map] in Sd.
  unfold getitem, rename in H. cbn [data index] in H. rewrite Sd in H.
  cbn in H. injection H as <-.
  unfold setitem. cbn. rewrite Si, !map_map. reflexivity.
Qed.

(** X4: the whole frame [process_csv] returns.  Its columns are the
    kept columns under their renamed labels; under each of them the row
    labelled [i] holds the cell of row [i] of the table, except under the
    start date, where it holds that cell rewritten by
    [reformat_date_string]. *)
Theorem process_csv_data csv_file target_month t out :
  read_csv csv_file = Ok t ->
  process_csv read_csv to_datetime argsort key_error_text
    csv_file target_month = Ok out ->
  data out
  = map (fun n =>
           (rename_label COLUMNS_TO_RENAME n,
            if String.eqb n "Campaign Data 16"
            then map (fun i => Str (reformat_date_string
                                      (nth i (column_of t n) NaN)))
                   (index out)
            else map (fun i => nth i (column_of t n) NaN) (index out)))
      COLUMNS_TO_KEEP.
Proof. apply process_csv_data_by_index. Qed.

(** X5: every column of the returned frame has one cell per row. *)
Theorem process_csv_rectangular csv_file target_month out n c :
  process_csv read_csv to_datetime argsort key_error_text
    csv_file target_month = Ok out ->
  lookup n (data out) = Some c ->
  length c = len out.
Proof.
  intros H L.
  destruct (process_csv_ok_reads _ _ _ _ _ _ _ H)
    as (t & dates & parsed & R & _).
  rewrite (process_csv_data_by_index csv_file target_month t out R H) in L.
  unfold len. revert L. generalize COLUMNS_TO_KEEP as names.
  induction names as [|k names IH]; cbn [map lookup]; [discriminate|].
  destruct (String.eqb (rename_label COLUMNS_TO_RENAME k) n); [|exact IH].
  intros [= <-]. destruct (String.eqb k "Campaign Data 16");
    now rewrite length_map.
Qed.

(** X6: the start dates of the returned frame are the start dates of
    the table's rows, rewritten; where the text of a row's start date does
    not have two slashes, the rewritten cell is the empty text, although
    the lenient parser read a date from it and the row was kept. *)
Theorem process_csv_start_dates csv_file target_month t dates out :
  read_csv csv_file = Ok t ->
  getitem (frame_of_table t) "Campaign Data 16" = Ok dates ->
  process_csv read_csv to_datetime argsort key_error_text
    csv_file target_month = Ok out ->
  exists starts,
    getitem out "Monthly Donation Start Date" = Ok starts
    /\ starts
       = map (fun i => Str (reformat_date_string (nth i dates NaN))) (index out)
    /\ forall p i s,
         nth_error (index out) p = Some i ->
         nth i dates NaN = Str s ->
         Py.count "/" s <> 2 ->
         nth_error starts p = Some (Str "").
Proof.
  intros R D H. apply getitem_ok in D.
  destruct (process_csv_ok_reads _ _ _ _ _ _ _ H)
    as (t' & dates' & parsed & R' & D' & T).
  assert (t' = t) by congruence. subst t'.
  assert (dates' = dates) by congruence. subst dates'.
  destruct (process_csv_result read_csv to_datetime argsort key_error_text
              to_datetime_length argsort_meets_contract
              _ _ _ _ _ _ R D T H) as (_ & _ & St).
  eexists. split; [apply getitem_ok; exact St|]. split; [reflexivity|].
  intros p i s P C N.
  rewrite nth_error_map, P. cbn [option_map]. rewrite C.
  now rewrite reformat_other_count.
Qed.

(** X7: no row is in the frames of two months: a label that two runs
    on the same file return belongs to one target month. *)
Theorem process_csv_months_disjoint csv_file month1 month2 out1 out2 i :
  process_csv read_csv to_datetime argsort key_error_text
    csv_file month1 = Ok out1 ->
  process_csv read_csv to_datetime argsort key_error_text
    csv_file month2 = Ok out2 ->
  In i (index out1) -> In i (index out2) -> month1 = month2.
Proof.
  intros H1 H2 I1 I2.
  destruct (process_csv_ok_reads _ _ _ _ _ _ _ H1)
    as (t & dates & parsed & R & D & T).
  destruct (process_csv_result read_csv to_datetime argsort key_error_text
              to_datetime_length argsort_meets_contract
              _ _ _ _ _ _ R D T H1) as (Ix1 & _ & _).
  destruct (process_csv_result read_csv to_datetime argsort key_error_text
              to_datetime_length argsort_meets_contract
              _ _ _ _ _ _ R D T H2) as (Ix2 & _ & _).
  rewrite Ix1 in I1. rewrite Ix2 in I2.
  apply (Permutation_in _ (index_out_permutation argsort argsort_meets_contract
                             month1 parsed)) in I1.
  apply (Permutation_in _ (index_out_permutation argsort argsort_meets_contract
                             month2 parsed)) in I2.
  apply kept_labels_In in I1 as [_ E1]. apply kept_labels_In in I2 as [_ E2].
  congruence.
Qed.

(** Every row whose date the parser read is in the frame of its month. *)
Lemma process_csv_row_in_its_month csv_file t dates parsed i ns out :
  read_csv csv_file = Ok t ->
  lookup "Campaign Data 16" (data (frame_of_table t)) = Some dates ->
  to_datetime dates = Ok parsed ->
  nth_error parsed i = Some (Some ns) ->
  process_csv read_csv to_datetime argsort key_error_text
    csv_file (Calendar.month ns) = Ok out ->
  In i (index out).
Proof.
  intros R D T N H.
  destruct (process_csv_result read_csv to_datetime argsort key_error_text
              to_datetime_length argsort_meets_contract
              _ _ _ _ _ _ R D T H) as (Ix & _ & _).
  rewrite Ix.
  apply (Permutation_in _ (Permutation_sym
           (index_out_permutation argsort argsort_meets_contract
              (Calendar.month ns) parsed))).
  apply kept_labels_In. split.
  - apply nth_error_Some. congruence.
  - now rewrite (nth_error_nth _ _ None N).
Qed.

End PipelineMore.

(** ** The order of the returned rows when no two dates are equal *)

Section OrderFacts.

Local Open Scope nat_scope.
Local Open Scope list_scope.

Lemma sorted_permutation_unique (l1 l2 : list Z) :
  StronglySorted Z.le l1 -> StronglySorted Z.le l2 -> Permutation l1 l2 ->
  l1 = l2.
Proof.
  revert l2. induction l1 as [|a l1 IH]; intros l2 S1 S2 P.
  - apply Permutation_nil in P. now subst.
  - destruct l2 as [|b l2];
      [apply Permutation_sym, Permutation_nil in P; discriminate|].
    apply StronglySorted_inv in S1 as [S1 F1].
    apply StronglySorted_inv in S2 as [S2 F2].
    assert (E : a = b).
    { assert (Ia : In a (b :: l2))
        by (apply (Permutation_in _ P); now left).
      assert (Ib : In b (a :: l1))
        by (apply (Permutation_in _ (Permutation_sym P)); now left).
      rewrite Forall_forall in F1, F2.
      destruct Ia as [->|Ia]; [reflexivity|].
      destruct Ib as [->|Ib]; [reflexivity|].
      apply Z.le_antisymm; auto. }
    subst b. f_equal. apply IH; auto.
    now apply Permutation_cons_inv in P.
Qed.

Lemma map_nth_injective (keys : list Z) (l1 l2 : list nat) :
  NoDup keys ->
  (forall i, In i l1 -> i < length keys) ->
  (forall i, In i l2 -> i < length keys) ->
  map (fun i => nth i keys 0%Z) l1 = map (fun i => nth i keys 0%Z) l2 ->
  l1 = l2.
Proof.
  intros N. revert l2. induction l1 as [|a l1 IH]; intros [|b l2] B1 B2 E;
    try discriminate; [reflexivity|].
  cbn [map] in E. injection E as Eh Et.
  f_equal.
  - apply (proj1 (NoDup_nth keys 0%Z) N); auto using in_eq.
  - apply IH; auto using in_cons.
Qed.

(** With distinct keys the contract leaves one sorting permutation. *)
Lemma argsort_unique argsort1 argsort2 keys :
  argsort_contract argsort1 -> argsort_contract argsort2 -> NoDup keys ->
  argsort1 keys = argsort2 keys.
Proof.
  intros [P1 S1] [P2 S2] N.
  apply (map_nth_injective keys); auto.
  - intros i I. apply (Permutation_in _ (P1 keys)) in I.
    apply in_seq in I. lia.
  - intros i I. apply (Permutation_in _ (P2 keys)) in I.
    apply in_seq in I. lia.
  - apply sorted_permutation_unique; auto.
    apply Permutation_map.
    eapply Permutation_trans; [apply P1 | apply Permutation_sym, P2].
Qed.

(** X8: when the dates of the kept rows are pairwise distinct, the frame
    [process_csv] returns does not depend on the sorting permutation: any
    two permutations within the contract give the same frame. *)
Theorem process_csv_order_determined
  (read_csv : string -> result Table)
  (to_datetime : list cell -> result (list (option Z)))
  (argsort1 argsort2 : list Z -> list nat)
  (key_error_text : list string -> string)
  csv_file target_month t dates parsed out1 out2 :
  (forall series parsed,
     to_datetime series = Ok parsed -> length parsed = length series) ->
  argsort_contract argsort1 -> argsort_contract argsort2 ->
  read_csv csv_file = Ok t ->
  getitem (frame_of_table t) "Campaign Data 16" = Ok dates ->
  to_datetime dates = Ok parsed ->
  NoDup (kept_stamps target_month parsed) ->
  process_csv read_csv to_datetime argsort1 key_error_text
    csv_file target_month = Ok out1 ->
  process_csv read_csv to_datetime argsort2 key_error_text
    csv_file target_month = Ok out2 ->
  out1 = out2.
Proof.
  intros L C1 C2 R D T N H1 H2. apply getitem_ok in D.
  destruct (process_csv_result read_csv to_datetime argsort1 key_error_text
              L C1 _ _ _ _ _ _ R D T H1) as (Ix1 & _ & _).
  destruct (process_csv_result read_csv to_datetime argsort2 key_error_text
              L C2 _ _ _ _ _ _ R D T H2) as (Ix2 & _ & _).
  pose proof (process_csv_data_by_index read_csv to_datetime argsort1
                key_error_text L C1 _ _ _ _ R H1) as D1.
  pose proof (process_csv_data_by_index read_csv to_datetime argsort2
                key_error_text L C2 _ _ _ _ R H2) as D2.
  rewrite (argsort_unique argsort1 argsort2 _ C1 C2 N) in Ix1.
  rewrite <- Ix2 in Ix1.
  destruct out1 as [i1 d1], out2 as [i2 d2]. cbn [index data] in *.
  subst i1. now rewrite D1, D2.
Qed.

End OrderFacts.

(** ** More on the writer and the command line *)

Section CliMore.

Local Open Scope list_scope.

Variable read_csv : string -> result Table.
Variable to_datetime : list cell -> result (list (option Z)).
Variable argsort : list Z -> list nat.
Variable key_error_text : list string -> string.
Variable path_exists : string -> bool.
Variable to_csv : string -> DataFrame -> option exn.

Local Notation "'run'" := (run_cli read_csv to_datetime argsort key_error_text
                             path_exists to_csv).
Local Notation "'process'" :=
  (process_csv read_csv to_datetime argsort key_error_text).

Lemma month_name_in_In names target_month name :
  month_name_in names target_month = Some name -> In (target_month, name) names.
Proof.
  induction names as [|[k v] names IH]; cbn [month_name_in]; [discriminate|].
  destruct (Z.eqb_spec k target_month) as [->|_].
  - intros [= ->]. now left.
  - intros H. right. auto.
Qed.

Lemma month_name_range target_month name :
  month_name target_month = Some name -> (1 <= target_month <= 12)%Z.
Proof.
  intros H. destruct (Z.ltb_spec target_month 1) as [L|L].
  - rewrite month_name_outside in H by lia. discriminate.
  - destruct (Z.ltb_spec 12 target_month) as [U|U]; [|lia].
    rewrite month_name_outside in H by lia. discriminate.
Qed.

Ltac trace_eq :=
  cbv beta zeta; cbn [stdin trace]; rewrite <- ?app_assoc;
  cbn [stdin trace]; rewrite <- ?app_assoc; reflexivity.

(** The steps of [run_cli] once the path and the month are known. *)
Lemma run_cli_with_arguments prog csv_file month rest w :
  run (prog :: csv_file :: month :: rest) w
  = let w1 := {| stdin := stdin w;
                 trace := trace w ++ [Print "CLI Mode";
                                      Print (Py.replicate 40 "=");
                                      PathExists csv_file] |} in
    let say line w :=
      (Ok tt, {| stdin := stdin w; trace := trace w ++ [Print line] |}) in
    if negb (path_exists csv_file) then
      say ("Error: File '" ++ csv_file ++ "' not found")%string w1
    else
      match Py.int month with
      | None => say "Error: Month must be a number between 1-12"%string w1
      | Some m =>
          if ((m <? 1) || (12 <? m))%Z then
            say "Error: Month must be between 1 and 12"%string w1
          else
            match month_name m with
            | None => say ("Error: " ++ Py.str_int m)%string
                        {| stdin := stdin w;
                           trace := trace w1
                                    ++ [Print (nl "Processing CSV file: "
                                               ++ csv_file)] |}
            | Some name =>
                let w2 :=
                  {| stdin := stdin w;
                     trace := trace w1
                              ++ [Print (nl "Processing CSV file: " ++ csv_file);
                                  Print ("Filtering for month: " ++ name);
                                  ReadCsv csv_file] |} in
                match process csv_file m with
                | Raise e => say ("Error: " ++ str_exn e)%string w2
                | Ok out =>
                    let path := Py.path_join "."
                                  (name ++ " New EN Monthly Donors.csv") in
                    let w3 := {| stdin := stdin w;
                                 trace := trace w2 ++ [ToCsv path out] |} in
                    match to_csv path out with
                    | Some e => say ("Error: " ++ str_exn e)%string w3
                    | None =>
                        (Ok tt,
                         {| stdin := stdin w;
                            trace := trace w3
                                     ++ [Print (nl "Success!");
                                         Print ("Found "
                                                ++ Py.str_int (Z.of_nat (len out))
                                                ++ " records for " ++ name);
                                         Print ("Output saved to: " ++ path)] |})
                    end
                end
            end
      end.
Proof.
  destruct w as [sin tr].
  unfold run_cli, cli_month, save_filtered_csv, bindM, print, emit, ret,
    try_except, lift, raiseM.
  cbv beta zeta. cbn [stdin trace].
  destruct (path_exists csv_file); cbn [negb]; [|trace_eq].
  destruct (Py.int month) as [m|]; [|trace_eq].
  destruct ((m <? 1) || (12 <? m))%Z; [trace_eq|].
  destruct (month_name m) as [name|]; [|trace_eq].
  destruct (process csv_file m) as [out|e]; [|trace_eq].
  destruct (to_csv _ out); trace_eq.
Qed.

Lemma month_file_path target_month name :
  month_name target_month = Some name ->
  Py.path_join "." (name ++ " New EN Monthly Donors.csv")
  = ("./" ++ name ++ " New EN Monthly Donors.csv")%string.
Proof.
  intros H. apply month_name_in_In in H. unfold MONTH_NAMES in H.
  cbn [In] in H.
  repeat (destruct H as [[= <- <-]|H]; [reflexivity|]).
  contradiction.
Qed.

(** The run from the month on, for a path that exists: what [run_cli]
    does once [cli_month] has returned. *)
Lemma run_cli_unfold argv w :
  run argv w
  = (print "CLI Mode" ;;;
     print (Py.replicate 40 "=") ;;;
     csv_file <~ match argv with
                 | _ :: path :: _ => ret path
                 | _ => line <~ input "Enter CSV file path: " ;;
                        ret (Py.strip line)
                 end ;;
     emit (PathExists csv_file) ;;;
     if negb (path_exists csv_file) then
       print ("Error: File '" ++ csv_file ++ "' not found")
     else
       month <~ cli_month argv ;;
       match month with
       | None => ret tt
       | Some target_month =>
           if ((target_month <? 1) || (12 <? target_month))%Z then
             print "Error: Month must be between 1 and 12"
           else
             try_except
               (print (nl "Processing CSV file: " ++ csv_file) ;;;
                name <~ match month_name target_month with
                        | Some name => ret name
                        | None => raiseM (KeyError (Py.str_int target_month))
                        end ;;
                print ("Filtering for month: " ++ name) ;;;
                emit (ReadCsv csv_file) ;;;
                filtered_df <~ lift (process csv_file target_month) ;;
                output_path <~ save_filtered_csv to_csv filtered_df
                                 target_month "." ;;
                print (nl "Success!") ;;;
                print ("Found " ++ Py.str_int (Z.of_nat (len filtered_df))
                       ++ " records for " ++ name) ;;;
                print ("Output saved to: " ++ output_path))
               (fun e => print ("Error: " ++ str_exn e))
       end) w.
Proof. reflexivity. Qed.

(** What the last stage of [run_cli] does to the world, for any path and
    month in 1..12: it returns, keeps the input, reads the file once and
    writes at most the frame [process_csv] returned. *)
Lemma run_cli_last_stage csv_file m w r w' :
  (1 <= m <= 12)%Z ->
  try_except
    (print (nl "Processing CSV file: " ++ csv_file) ;;;
     name <~ match month_name m with
             | Some name => ret name
             | None => raiseM (KeyError (Py.str_int m))
             end ;;
     print ("Filtering for month: " ++ name) ;;;
     emit (ReadCsv csv_file) ;;;
     filtered_df <~ lift (process csv_file m) ;;
     output_path <~ save_filtered_csv to_csv filtered_df m "." ;;
     print (nl "Success!") ;;;
     print ("Found " ++ Py.str_int (Z.of_nat (len filtered_df))
            ++ " records for " ++ name) ;;;
     print ("Output saved to: " ++ output_path))
    (fun e => print ("Error: " ++ str_exn e)) w = (r, w') ->
  r = Ok tt /\ stdin w' = stdin w
  /\ exists added,
       trace w' = trace w ++ added
       /\ filter is_read added = [ReadCsv csv_file]
       /\ (length (filter is_write added) <= 1)%nat
       /\ forall path df,
            In (ToCsv path df) added ->
            exists name,
              month_name m = Some name /\ process csv_file m = Ok df
              /\ path = ("./" ++ name ++ " New EN Monthly Donors.csv")%string.
Proof.
  intros Rg. destruct w as [sin tr].
  destruct (month_name_inside m Rg) as [name Hn].
  unfold try_except, save_filtered_csv, bindM, print, emit, ret, lift, raiseM.
  rewrite Hn. cbn [stdin trace]. rewrite (month_file_path m name Hn).
  destruct (process csv_file m) as [out|e] eqn:P; cbn [stdin trace].
  - destruct (to_csv _ out); cbn [stdin trace]; intros [= <- <-];
      (split; [reflexivity|]; split; [reflexivity|]);
      cbn [trace]; rewrite <- ?app_assoc; eexists; (split; [reflexivity|]);
      (split; [reflexivity|]); (split; [cbn; lia|]);
      intros path df I; cbn [app] in I;
      repeat (destruct I as [I|I]; [try discriminate I|]);
      try contradiction;
      injection I as <- <-; eauto.
  - intros [= <- <-]. split; [reflexivity|]. split; [reflexivity|].
    cbn [trace]. rewrite <- ?app_assoc. eexists. split; [reflexivity|].
    split; [reflexivity|]. split; [cbn; lia|].
    intros path df I. cbn [app] in I.
    repeat (destruct I as [I|I]; [discriminate I|]). contradiction.
Qed.

Lemma bindM_inv {A B : Type} (m : M A) (k : A -> M B) w r w' :
  bindM m k w = (r, w') ->
  (exists a w1, m w = (Ok a, w1) /\ k a w1 = (r, w'))
  \/ (exists e, m w = (Raise e, w') /\ r = Raise e).
Proof.
  unfold bindM. destruct (m w) as [[a|e] w1].
  - intros H. left. eauto.
  - intros [= <- <-]. right. eauto.
Qed.

Lemma quiet_ret {A : Type} (a : A) : quiet (ret a).
Proof.
  intros w r w' [= <- <-]. split; [|left; eauto].
  exists []. now rewrite app_nil_r.
Qed.

Lemma quiet_print line : quiet (print line).
Proof.
  intros w r w' [= <- <-]. split; [|left; eauto].
  exists [Print line]. auto.
Qed.

Lemma quiet_input prompt : quiet (input prompt).
Proof.
  intros w r w'. unfold input. destruct (stdin w) as [|line rest];
    intros [= <- <-]; (split; [exists [Input prompt]; auto|]);
    [right; auto | left; eauto].
Qed.

Lemma quiet_bind {A B : Type} (m : M A) (k : A -> M B) :
  quiet m -> (forall a, quiet (k a)) -> quiet (bindM m k).
Proof.
  intros Qm Qk w r w' H.
  apply bindM_inv in H as [(a & w1 & H1 & H2)|(e & H1 & ->)].
  - destruct (Qm _ _ _ H1) as [(ad1 & T1 & R1 & W1) _].
    destruct (Qk a _ _ _ H2) as [(ad2 & T2 & R2 & W2) E].
    split; [|exact E].
    exists (ad1 ++ ad2). rewrite T2, T1, <- app_assoc, !filter_app.
    now rewrite R1, R2, W1, W2.
  - destruct (Qm _ _ _ H1) as [T [[a E]|E]]; [discriminate|].
    destruct E as [[= ->] E]. split; [exact T | right; auto].
Qed.

Lemma quiet_for_each {A : Type} (l : list A) (body : A -> M unit) :
  (forall x, quiet (body x)) -> quiet (for_each l body).
Proof.
  intros Q. induction l as [|x l IH]; cbn [for_each].
  - apply quiet_ret.
  - apply quiet_bind; auto.
Qed.

Lemma quiet_cli_month argv : quiet (cli_month argv).
Proof.
  unfold cli_month.
  assert (P : quiet
            (print (nl "Available months:") ;;;
             for_each MONTH_NAMES
               (fun im => print (Py.str_int (fst im) ++ ": " ++ snd im)) ;;;
             line <~ input (nl "Enter month number (1-12): ") ;;
             match Py.int line with
             | Some target_month => ret (Some target_month)
             | None => print "Error: Please enter a valid number" ;;; ret None
             end)).
  { apply quiet_bind; [apply quiet_print | intros _].
    apply quiet_bind;
      [apply quiet_for_each; intros; apply quiet_print | intros _].
    apply quiet_bind; [apply quiet_input | intros line].
    destruct (Py.int line); [apply quiet_ret|].
    apply quiet_bind; [apply quiet_print | intros; apply quiet_ret]. }
  destruct argv as [|a0 [|a1 [|month rest]]]; try exact P.
  destruct (Py.int month); [apply quiet_ret|].
  apply quiet_bind; intros; auto using quiet_print, quiet_ret.
Qed.

Lemma quiet_path_exists path : quiet (emit (PathExists path)).
Proof.
  intros w r w' [= <- <-]. split; [|left; eauto].
  exists [PathExists path]. auto.
Qed.

Lemma filter_nil_not_In {A : Type} (p : A -> bool) l x :
  filter p l = [] -> p x = true -> ~ In x l.
Proof.
  intros F Px I.
  assert (In x (filter p l)) by (apply filter_In; auto).
  rewrite F in *. contradiction.
Qed.

Lemma careful_of_quiet P (m : M unit) : quiet m -> careful P m.
Proof.
  intros Q w r w' H. destruct (Q _ _ _ H) as [(ad & T & Rd & Wr) E]. split.
  - destruct E as [[[] ->]|E]; auto.
  - exists ad. rewrite Rd, Wr. repeat split; auto.
    intros path df I. exfalso.
    now apply (filter_nil_not_In is_write ad (ToCsv path df) Wr).
Qed.

Lemma careful_after_quiet {A : Type} P (m : M A) (k : A -> M unit) :
  quiet m -> (forall a, careful P (k a)) -> careful P (bindM m k).
Proof.
  intros Qm Ck w r w' H.
  apply bindM_inv in H as [(a & w1 & H1 & H2)|(e & H1 & ->)].
  - destruct (Qm _ _ _ H1) as [(ad1 & T1 & R1 & W1) _].
    destruct (Ck a _ _ _ H2) as [E (ad2 & T2 & R2 & W2 & Pw)].
    split; [exact E|].
    exists (ad1 ++ ad2). rewrite T2, T1, <- app_assoc, !filter_app, R1, W1.
    repeat split; auto.
    intros path df I. apply in_app_or in I as [I|I]; auto.
    exfalso. now apply (filter_nil_not_In is_write ad1 (ToCsv path df) W1).
  - destruct (Qm _ _ _ H1) as [(ad & T & Rd & Wr) [[a E]|E]]; [discriminate|].
    destruct E as [[= ->] E]. split; [right; auto|].
    exists ad. rewrite Rd, Wr. repeat split; auto.
    intros path df I. exfalso.
    now apply (filter_nil_not_In is_write ad (ToCsv path df) Wr).
Qed.

Local Notation "'written'" :=
  (written read_csv to_datetime argsort key_error_text path_exists).

Lemma run_cli_careful argv : careful written (run argv).
Proof.
  unfold run_cli.
  apply careful_after_quiet; [apply quiet_print | intros _].
  apply careful_after_quiet; [apply quiet_print | intros _].
  apply careful_after_quiet.
  { destruct argv as [|a0 [|a1 rest]]; try apply quiet_ret;
      (apply quiet_bind; [apply quiet_input | intros; apply quiet_ret]). }
  intros csv_file.
  apply careful_after_quiet; [apply quiet_path_exists | intros _].
  destruct (path_exists csv_file) eqn:Ex; cbn [negb];
    [|apply careful_of_quiet, quiet_print].
  apply careful_after_quiet; [apply quiet_cli_month | intros [m|]];
    [|apply careful_of_quiet, quiet_ret].
  destruct (Z.ltb_spec m 1) as [L1|L1]; cbn [orb];
    [apply careful_of_quiet, quiet_print|].
  destruct (Z.ltb_spec 12 m) as [L2|L2];
    [apply careful_of_quiet, quiet_print|].
  intros w r w' H.
  apply run_cli_last_stage in H as (-> & _ & ad & T & Rd & Wr & Pw);
    [|lia].
  split; [now left|]. exists ad. rewrite Rd. repeat split; auto.
  intros path df I. destruct (Pw path df I) as (name & Hn & Hp & ->).
  exists csv_file, m, name. auto.
Qed.

(** X9: whatever its arguments and the lines on standard input,
    [run_cli] only appends to the trace; it reads at most one file and
    writes at most one, and a file it writes is a frame [process_csv]
    returned for a path that exists and a month of [MONTH_NAMES], written
    under that month's name in the current directory. *)
Theorem run_cli_writes_only_results argv w r w' :
  run_cli read_csv to_datetime argsort key_error_text path_exists to_csv
    argv w = (r, w') ->
  exists added,
    trace w' = trace w ++ added
    /\ (length (filter is_read added) <= 1)%nat
    /\ (length (filter is_write added) <= 1)%nat
    /\ forall path df,
         In (ToCsv path df) added ->
         exists csv_file m name,
           path_exists csv_file = true /\ month_name m = Some name
           /\ process_csv read_csv to_datetime argsort key_error_text
             csv_file m = Ok df
           /\ path = ("./" ++ name ++ " New EN Monthly Donors.csv")%string.
Proof.
  intros H. destruct (run_cli_careful argv w r w' H) as [_ E]. exact E.
Qed.

(** X10: the only exception that escapes [run_cli] is the [EOFError] of
    a prompt that finds standard input exhausted; with the path and the
    month both given as arguments the run always returns, and leaves
    standard input untouched. *)
Theorem run_cli_only_eof_escapes argv w r w' :
  run_cli read_csv to_datetime argsort key_error_text path_exists to_csv
    argv w = (r, w') ->
  (r = Ok tt
   \/ (r = Raise (EOFError "EOF when reading a line") /\ stdin w' = []))
  /\ ((3 <= length argv)%nat -> r = Ok tt /\ stdin w' = stdin w).
Proof.
  intros H. split; [now destruct (run_cli_careful argv w r w' H)|].
  intros L. destruct argv as [|prog [|csv_file [|month rest]]];
    cbn [length] in L; try lia.
  rewrite run_cli_with_arguments in H. cbv beta zeta in H.
  destruct (path_exists csv_file); cbn [negb] in H;
    [|injection H as <- <-; auto].
  destruct (Py.int month) as [m|]; [|injection H as <- <-; auto].
  destruct ((m <? 1) || (12 <? m))%Z; [injection H as <- <-; auto|].
  destruct (month_name m); [|injection H as <- <-; auto].
  destruct (process csv_file m) as [out|e]; [|injection H as <- <-; auto].
  destruct (to_csv _ out); injection H as <- <-; auto.
Qed.

(** X11: a run with a path that exists, a month in 1..12, a file
    [process_csv] accepts and a write that succeeds: the file is read
    once, the frame is written once under the month's name, also when it
    has no rows, and the count of its rows and the path are printed. *)
Theorem run_cli_success prog csv_file month rest w m name out :
  path_exists csv_file = true ->
  Py.int month = Some m ->
  month_name m = Some name ->
  process_csv read_csv to_datetime argsort key_error_text
             csv_file m = Ok out ->
  to_csv ("./" ++ name ++ " New EN Monthly Donors.csv")%string out = None ->
  run_cli read_csv to_datetime argsort key_error_text path_exists to_csv
    (prog :: csv_file :: month :: rest) w
  = (Ok tt,
     {| stdin := stdin w;
        trace :=
          trace w
          ++ [Print "CLI Mode"; Print (Py.replicate 40 "=");
              PathExists csv_file;
              Print (nl "Processing CSV file: " ++ csv_file);
              Print ("Filtering for month: " ++ name);
              ReadCsv csv_file;
              ToCsv ("./" ++ name ++ " New EN Monthly Donors.csv") out;
              Print (nl "Success!");
              Print ("Found " ++ Py.str_int (Z.of_nat (len out))
                     ++ " records for " ++ name);
              Print ("Output saved to: ./" ++ name
                     ++ " New EN Monthly Donors.csv")] |}).
Proof.
  intros Ex Im Hn Hp Hw.
  pose proof (month_name_range m name Hn) as Rg.
  rewrite run_cli_with_arguments. cbv beta zeta.
  rewrite Ex, Im, Hn, Hp, (month_file_path m name Hn), Hw. cbn [negb].
  assert (E : ((m <? 1) || (12 <? m))%Z = false).
  { apply orb_false_iff. split; apply Z.ltb_ge; lia. }
  rewrite E. cbn [stdin trace]. rewrite <- ?app_assoc. reflexivity.
Qed.

(** X12: when [process_csv] raises, for a path that exists and a month
    in 1..12, the run prints the text of the exception after the word
    Error and writes nothing. *)
Theorem run_cli_reports_failure prog csv_file month rest w m name e :
  path_exists csv_file = true ->
  Py.int month = Some m ->
  month_name m = Some name ->
  process_csv read_csv to_datetime argsort key_error_text
             csv_file m = Raise e ->
  run_cli read_csv to_datetime argsort key_error_text path_exists to_csv
    (prog :: csv_file :: month :: rest) w
  = (Ok tt,
     {| stdin := stdin w;
        trace :=
          trace w
          ++ [Print "CLI Mode"; Print (Py.replicate 40 "=");
              PathExists csv_file;
              Print (nl "Processing CSV file: " ++ csv_file);
              Print ("Filtering for month: " ++ name);
              ReadCsv csv_file;
              Print ("Error: " ++ str_exn e)] |}).
Proof.
  intros Ex Im Hn Hp.
  pose proof (month_name_range m name Hn) as Rg.
  rewrite run_cli_with_arguments. cbv beta zeta.
  rewrite Ex, Im, Hn, Hp. cbn [negb].
  assert (E : ((m <? 1) || (12 <? m))%Z = false).
  { apply orb_false_iff. split; apply Z.ltb_ge; lia. }
  rewrite E. cbn [stdin trace]. rewrite <- ?app_assoc. reflexivity.
Qed.

Lemma path_join_last (o : option ascii) (a b : string) :
  match o with
  | Some "/"%char => (a ++ b)%string
  | _ => (a ++ "/" ++ b)%string
  end
  = (match o with
     | Some "/"%char => a
     | _ => (a ++ "/")%string
     end ++ b)%string.
Proof.
  destruct o as [[[] [] [] [] [] [] [] []]|]; cbn;
    rewrite ?append_assoc; reflexivity.
Qed.

(** Joining a directory and a relative name puts one prefix, fixed by the
    directory, in front of the name. *)
Lemma path_join_prefix a :
  exists prefix, forall c r,
    Ascii.eqb c "/" = false ->
    Py.path_join a (String c r) = (prefix ++ String c r)%string.
Proof.
  destruct a as [|a0 a'].
  - exists EmptyString. intros c r H. unfold Py.path_join.
    destruct c as [[] [] [] [] [] [] [] []]; try discriminate H; reflexivity.
  - eexists. intros c r H. unfold Py.path_join.
    destruct c as [[] [] [] [] [] [] [] []]; try discriminate H;
      apply path_join_last.
Qed.

Lemma append_cancel_l (a x y : string) :
  (a ++ x)%string = (a ++ y)%string -> x = y.
Proof. induction a as [|c a IH]; cbn; [auto|]. intros [= H]. auto. Qed.

(** X13: inside 1..12 [save_filtered_csv] writes the frame once, to the
    month's file name joined to the output directory; it returns that path
    when the write succeeds and passes on what the write raises. *)
Theorem save_filtered_csv_writes_month_file filtered_df target_month output_dir w :
  (1 <= target_month <= 12)%Z ->
  exists name,
    month_name target_month = Some name
    /\ save_filtered_csv to_csv filtered_df target_month output_dir w
       = (match to_csv (Py.path_join output_dir
                          (name ++ " New EN Monthly Donors.csv"))
                  filtered_df with
          | None => Ok (Py.path_join output_dir
                          (name ++ " New EN Monthly Donors.csv"))
          | Some e => Raise e
          end,
          {| stdin := stdin w;
             trace := trace w
                      ++ [ToCsv (Py.path_join output_dir
                                   (name ++ " New EN Monthly Donors.csv"))
                            filtered_df] |}).
Proof.
  intros H. destruct (month_name_inside target_month H) as [name E].
  exists name. split; [exact E|].
  unfold save_filtered_csv. rewrite E.
  unfold bindM, emit, raiseM, ret. cbn [stdin trace].
  destruct (to_csv _ filtered_df); reflexivity.
Qed.

(** X14: in one output directory the files of different months have
    different paths: two calls that return the same path were given the
    same month. *)
Theorem save_filtered_csv_paths_differ df1 df2 month1 month2 output_dir
  w1 w2 path w1' w2' :
  save_filtered_csv to_csv df1 month1 output_dir w1 = (Ok path, w1') ->
  save_filtered_csv to_csv df2 month2 output_dir w2 = (Ok path, w2') ->
  month1 = month2.
Proof.
  unfold save_filtered_csv, bindM, emit, raiseM, ret.
  destruct (month_name month1) as [n1|] eqn:E1; [|discriminate].
  destruct (month_name month2) as [n2|] eqn:E2; [|discriminate].
  destruct (to_csv _ df1); [discriminate|]. intros [= <- _].
  destruct (to_csv _ df2); [discriminate|]. intros [= P _].
  destruct (path_join_prefix output_dir) as [prefix J].
  apply month_name_in_In in E1, E2. unfold MONTH_NAMES in E1, E2.
  cbn [In] in E1, E2.
  repeat (destruct E1 as [[= <- <-]|E1]; [|]); try contradiction;
    repeat (destruct E2 as [[= <- <-]|E2]; [|]); try contradiction;
    try reflexivity;
    cbn [append] in P; rewrite !J in P by reflexivity;
    apply append_cancel_l in P; discriminate P.
Qed.

End CliMore.

(** ** The form *)

Section FormFacts.

Local Open Scope list_scope.

Variable read_csv : string -> result Table.
Variable to_datetime : list cell -> result (list (option Z)).
Variable argsort : list Z -> list nat.
Variable key_error_text : list string -> string.
Variable to_csv_text : DataFrame -> string.

Local Notation "'process'" :=
  (process_csv read_csv to_datetime argsort key_error_text).

(** The dictionary of the month options: one key per month of
    [MONTH_NAMES], in its order, mapped to the month's number. *)
Lemma month_options_value :
  month_options_from range_1_13 []
  = Ok (map (fun im => ((Py.str_int (fst im) ++ " - " ++ snd im)%string,
                        fst im)) MONTH_NAMES).
Proof. vm_compute. reflexivity. Qed.

(** Looking an option up gives back the month it was made from. *)
Lemma month_option_lookup key :
  In key (map (fun im => (Py.str_int (fst im) ++ " - " ++ snd im)%string)
            MONTH_NAMES) ->
  exists m name,
    key = (Py.str_int m ++ " - " ++ name)%string
    /\ month_name m = Some name
    /\ dict_get (map (fun im => ((Py.str_int (fst im) ++ " - " ++ snd im)%string,
                                 fst im)) MONTH_NAMES) key = Ok m.
Proof.
  unfold MONTH_NAMES. cbn [map In fst snd].
  intros I.
  repeat (destruct I as [<-|I];
          [eexists _, _; split; [reflexivity|]; split;
           vm_compute; reflexivity|]).
  contradiction.
Qed.

(** X15: the page of the form, when the select box returns one of its
    options.  The script never raises.  It shows the title, the
    instructions, the uploader and the select box with the twelve options;
    the option picked names the month passed to [process_csv]; with a file
    uploaded, an exception of [process_csv] becomes one error message, a
    frame with rows is announced, previewed by its first five rows and
    offered for download under the month's file name, and a frame without
    rows is announced with a warning and no download. *)
Theorem run_streamlit_app_page uploaded_file select page :
  (forall options, options <> [] -> In (select options) options) ->
  exists m name,
    select (map (fun im => (Py.str_int (fst im) ++ " - " ++ snd im)%string)
              MONTH_NAMES)
    = (Py.str_int m ++ " - " ++ name)%string
    /\ month_name m = Some name
    /\ run_streamlit_app read_csv to_datetime argsort key_error_text
         to_csv_text uploaded_file select page
       = (Ok tt,
          page
          ++ [st_title "EN New Sustainers by Month";
              st_write instructions;
              st_file_uploader "Choose a CSV file" "csv";
              st_selectbox "Select Month"
                (map (fun im => (Py.str_int (fst im) ++ " - " ++ snd im)%string)
                   MONTH_NAMES)]
          ++ match uploaded_file with
             | None => []
             | Some file =>
                 match process_csv read_csv to_datetime argsort
                         key_error_text file m with
                 | Raise e => [st_error ("Error: " ++ str_exn e)]
                 | Ok out =>
                     st_success ("Found " ++ Py.str_int (Z.of_nat (len out))
                                 ++ " records for " ++ name)
                     :: (if (0 <? len out)%nat
                         then [st_subheader "Preview of filtered data:";
                               st_dataframe (head out);
                               st_download_button "Download Filtered CSV"
                                 (to_csv_text out)
                                 (name ++ " New EN Monthly Donors.csv")
                                 "text/csv"]
                         else [st_warning ("No records found for " ++ name)])
                 end
             end).
Proof.
  intros Sel.
  set (labels := map (fun im => (Py.str_int (fst im) ++ " - " ++ snd im)%string)
                   MONTH_NAMES).
  assert (I : In (select labels) labels) by (apply Sel; discriminate).
  destruct (month_option_lookup _ I) as (m & name & K & Hn & G).
  exists m, name. split; [exact K|]. split; [exact Hn|].
  unfold run_streamlit_app, ui_bind, ui_lift, show.
  rewrite month_options_value.
  rewrite map_map. cbn [fst].
  change (map (fun x : Z * string => (Py.str_int (fst x) ++ " - " ++ snd x)%string)
            MONTH_NAMES) with labels.
  rewrite G.
  destruct uploaded_file as [file|].
  - unfold ui_try, ui_bind, ui_lift, ui_ret, show.
    destruct (process file m) as [out|e].
    + rewrite Hn. destruct (0 <? len out)%nat;
        rewrite <- ?app_assoc; reflexivity.
    + rewrite <- ?app_assoc. reflexivity.
  - unfold ui_ret. rewrite <- ?app_assoc. reflexivity.
Qed.

(** The preview holds the first rows of the frame, five at most. *)
Lemma head_rows df :
  index (head df) = firstn 5 (index df)
  /\ len (head df) = Nat.min 5 (len df)
  /\ columns (head df) = columns df.
Proof.
  unfold head, len, columns. cbn [index data].
  rewrite length_firstn, map_map. repeat split.
Qed.

End FormFacts.

(** ** The facts at work on the reference instances *)

Section Instances.

Local Open Scope list_scope.

Lemma process_csv_keeps_target_month_witness :
  exists parsed,
    Ref.to_datetime Ref.march_dates = Ok parsed
    /\ (forall i,
          In i (index Ref.march_result)
          <-> (i < length (records Ref.march_table))%nat
              /\ option_map Calendar.month (nth i parsed None) = Some 3)
    /\ (forall i, nth i parsed None = None -> ~ In i (index Ref.march_result))
    /\ NoDup (index Ref.march_result)
    /\ (len Ref.march_result <= length (records Ref.march_table))%nat.
Proof.
  apply (process_csv_keeps_target_month
           Ref.read_csv Ref.to_datetime Ref.argsort_stable Ref.key_error_text
           ref_to_datetime_length ref_argsort_stable_contract
           "march.csv" 3 Ref.march_table Ref.march_dates Ref.march_result);
    vm_compute; reflexivity.
Defined.

Lemma process_csv_march_scenario_witness :
  exists out,
    process_csv Ref.read_csv Ref.to_datetime Ref.argsort_stable
      Ref.key_error_text "march.csv" 3 = Ok out
    /\ len out = 2%nat
    /\ index out = [0%nat; 1%nat]
    /\ getitem out "Monthly Donation Start Date"
       = Ok [Str "03/05/2024"; Str "03/20/2024"].
Proof.
  apply (process_csv_march_scenario
           Ref.read_csv Ref.to_datetime Ref.argsort_stable Ref.key_error_text
           ref_to_datetime_length ref_argsort_stable_contract
           "march.csv" Ref.march_table).
  - reflexivity.
  - intros n I. unfold Ref.march_table. cbn [header].
    apply in_or_app. now left.
  - vm_compute. reflexivity.
  - vm_compute. reflexivity.
Defined.

Lemma process_csv_sorted_by_date_witness :
  exists parsed stamps,
    Ref.to_datetime Ref.march_dates = Ok parsed
    /\ map (fun i => nth i parsed None) (index Ref.march_result)
       = map Some stamps
    /\ StronglySorted Z.le stamps.
Proof.
  apply (process_csv_sorted_by_date
           Ref.read_csv Ref.to_datetime Ref.argsort_stable Ref.key_error_text
           ref_to_datetime_length ref_argsort_stable_contract
           "march.csv" 3 Ref.march_table Ref.march_dates Ref.march_result);
    vm_compute; reflexivity.
Defined.

(** C5, as the spec states it, fails: numpy's quicksort, which
    [sort_values] uses, does not keep equal dates in their input order.
    Of twenty donors who start on the same day, the one in row 17
    comes out before the one in row 1. *)
Lemma process_csv_ties_not_stable :
  exists parsed out,
    Ref.to_datetime Ref2.same_day_dates = Ok parsed
    /\ process_csv Ref2.read_csv Ref.to_datetime Numpy.aquicksort
         Ref.key_error_text "same_day.csv" 3 = Ok out
    /\ ~ ties_keep_input_order parsed (index out).
Proof.
  eexists. eexists. split; [reflexivity |]. split; [vm_compute; reflexivity |].
  intros H. specialize (H 1%nat 17%nat).
  cbn [index] in H.
  assert (B : before 1%nat 17%nat
                [0; 17; 16; 15; 14; 13; 12; 11; 10; 9; 8; 7; 6; 5; 4; 3; 2; 1; 18; 19]%nat).
  { apply H; [lia | cbn; tauto | cbn; tauto | reflexivity]. }
  assert (L : (17 < 1)%nat).
  { apply (before_positions _ _ _ B); [| reflexivity | reflexivity].
    repeat constructor; cbn; intuition discriminate. }
  lia.
Qed.

(** The frame of that run, row by row, by its labels. *)
Example process_csv_same_day_order :
  option_map index
    (match process_csv Ref2.read_csv Ref.to_datetime Numpy.aquicksort
             Ref.key_error_text "same_day.csv" 3 with
     | Ok out => Some out
     | Raise _ => None
     end)
  = Some [0; 17; 16; 15; 14; 13; 12; 11; 10; 9; 8; 7; 6; 5; 4; 3; 2; 1; 18; 19]%nat.
Proof. vm_compute. reflexivity. Qed.

(** A short series numpy sorts by insertion, which keeps equal dates in
    order: so it is on the two donors of [Ref.ties_table] and on the
    export of the scenario. *)
Example process_csv_numpy_small :
  option_map index
    (match process_csv Ref.read_csv Ref.to_datetime Numpy.aquicksort
             Ref.key_error_text "ties.csv" 3 with
     | Ok out => Some out
     | Raise _ => None
     end)
  = Some [0; 1]%nat
  /\ process_csv Ref.read_csv Ref.to_datetime Numpy.aquicksort
       Ref.key_error_text "march.csv" 3 = Ok Ref.march_result.
Proof. split; vm_compute; reflexivity. Qed.

Lemma process_csv_columns_witness :
  columns Ref.march_result
  = ["Supporter ID"; "Supporter Email"; "Campaign ID";
     "Organization or Company"; "First Name"; "Last Name"; "Partner Name";
     "Address 1"; "City"; "State"; "ZIP Code"; "Raisers Edge Constituent ID";
     "Assigned Region"; "Donation Amount"; "Monthly Donation Start Date"]%string.
Proof.
  apply (process_csv_columns
           Ref.read_csv Ref.to_datetime Ref.argsort_stable Ref.key_error_text
           "march.csv" 3 Ref.march_result).
  vm_compute. reflexivity.
Defined.


(** The run of the scenario: the file is missing its date column, the
    failure is printed, and nothing is written. *)
Example run_cli_missing_column_trace :
  Ref.run_cli ["main.py"; "short.csv"; "3"]%string Ref.start
  = (Ok tt,
     {| stdin := [];
        trace :=
          [Print "CLI Mode"; Print (Py.replicate 40 "=");
           PathExists "short.csv";
           Print (nl "Processing CSV file: short.csv");
           Print "Filtering for month: March";
           ReadCsv "short.csv";
           Print "Error: Error processing CSV: Column 'Campaign Data 16' not found in CSV file"] |}).
Proof. vm_compute. reflexivity. Qed.

Lemma run_cli_rejects_bad_month_witness :
  exists message,
    Ref.run_cli ["main.py"; "march.csv"; "13"]%string Ref.start
    = (Ok tt,
       {| stdin := [];
          trace := [Print "CLI Mode"; Print (Py.replicate 40 "=");
                    PathExists "march.csv"; Print message] |}).
Proof.
  apply (run_cli_rejects_bad_month
           Ref.read_csv Ref.to_datetime Ref.argsort_stable Ref.key_error_text
           Ref.path_exists Ref.to_csv "main.py" "march.csv" "13" [] Ref.start).
  right. exists 13. split; [reflexivity | lia].
Defined.

(** C9, as the spec states it, fails: with the month argument 13 the
    run asks the file system whether the input path exists before it
    rejects the month. *)
Lemma run_cli_checks_path_before_month :
  Ref.run_cli ["main.py"; "march.csv"; "13"]%string Ref.start
  = (Ok tt,
     {| stdin := [];
        trace := [Print "CLI Mode"; Print (Py.replicate 40 "=");
                  PathExists "march.csv";
                  Print "Error: Month must be between 1 and 12"] |}).
Proof. vm_compute. reflexivity. Qed.

Lemma save_filtered_csv_outside_months_witness :
  save_filtered_csv Ref.to_csv Ref.march_result 13 "." Ref.start
  = (Raise (KeyError (Py.str_int 13)), Ref.start).
Proof.
  apply (save_filtered_csv_outside_months
           Ref.to_csv Ref.march_result 13 "." Ref.start).
  right. lia.
Defined.

(** A month no row belongs to gives a frame without rows, and no error. *)
Example process_csv_no_match :
  exists out,
    Ref.process_csv false "march.csv" 6 = Ok out /\ len out = 0%nat.
Proof. eexists. split; [vm_compute; reflexivity | reflexivity]. Qed.

(** A run that succeeds reads the file once and writes one file. *)
Example run_cli_success_trace :
  exists df,
    Ref.run_cli ["main.py"; "march.csv"; "3"]%string Ref.start
    = (Ok tt,
       {| stdin := [];
          trace :=
            [Print "CLI Mode"; Print (Py.replicate 40 "=");
             PathExists "march.csv";
             Print (nl "Processing CSV file: march.csv");
             Print "Filtering for month: March";
             ReadCsv "march.csv";
             ToCsv "./March New EN Monthly Donors.csv" df;
             Print (nl "Success!");
             Print "Found 2 records for March";
             Print "Output saved to: ./March New EN Monthly Donors.csv"] |})
    /\ df = Ref.march_result.
Proof. eexists. split; [vm_compute; reflexivity | reflexivity]. Qed.

End Instances.

(** ** The further facts at work on the reference instances *)

Section MoreInstances.

Local Open Scope list_scope.

Lemma process_csv_returns_iff_witness :
  (exists out, Ref.process_csv false "march.csv" 3 = Ok out)
  <-> exists t dates parsed,
        Ref.read_csv "march.csv" = Ok t
        /\ (forall n, In n COLUMNS_TO_KEEP -> In n (header t))
        /\ getitem (frame_of_table t) "Campaign Data 16" = Ok dates
        /\ Ref.to_datetime dates = Ok parsed.
Proof.
  apply (process_csv_returns_iff
           Ref.read_csv Ref.to_datetime Ref.argsort_stable Ref.key_error_text
           ref_to_datetime_length ref_argsort_stable_contract "march.csv" 3).
Defined.

Lemma process_csv_missing_kept_columns_witness :
  process_csv Ref2.read_csv Ref.to_datetime Ref.argsort_stable
    Ref.key_error_text "dates.csv" 3
  = Raise (Exception
      ("Error processing CSV: "
       ++ Ref.key_error_text
            ["Supporter Email"; "Campaign ID"; "Organization or Company";
             "First Name"; "Last Name"; "Partner Name"; "Address 1"; "City";
             "State"; "ZIP Code"; "Raisers Edge Constituent ID";
             "Assigned Region"; "Campaign Data 4"]%string)).
Proof.
  apply (process_csv_missing_kept_columns
           Ref2.read_csv Ref.to_datetime Ref.argsort_stable Ref.key_error_text
           ref_to_datetime_length ref_argsort_stable_contract
           "dates.csv" 3 Ref2.dates_table
           [Str "5/3/2024"; Str "1/4/2024"]
           (map Ref.slash_date [Str "5/3/2024"; Str "1/4/2024"]));
    vm_compute; reflexivity.
Defined.

Lemma process_csv_failures_witness :
  (exists e0,
     Ref.read_csv "none.csv" = Raise e0
     /\ Exception "Error processing CSV: No such file or directory"
        = Exception ("Error processing CSV: " ++ str_exn e0))
  \/ (exists t,
        Ref.read_csv "none.csv" = Ok t
        /\ ~ In "Campaign Data 16"%string (header t)
        /\ Exception "Error processing CSV: No such file or directory"
           = Exception
               "Error processing CSV: Column 'Campaign Data 16' not found in CSV file")
  \/ (exists t dates e0,
        Ref.read_csv "none.csv" = Ok t
        /\ getitem (frame_of_table t) "Campaign Data 16" = Ok dates
        /\ Ref.to_datetime dates = Raise e0
        /\ Exception "Error processing CSV: No such file or directory"
           = Exception ("Error processing CSV: " ++ str_exn e0))
  \/ (exists t dates parsed m ms,
        Ref.read_csv "none.csv" = Ok t
        /\ getitem (frame_of_table t) "Campaign Data 16" = Ok dates
        /\ Ref.to_datetime dates = Ok parsed
        /\ filter (fun n => negb (existsb (String.eqb n) (header t)))
             COLUMNS_TO_KEEP = m :: ms
        /\ Exception "Error processing CSV: No such file or directory"
           = Exception
               ("Error processing CSV: " ++ Ref.key_error_text (m :: ms))).
Proof.
  apply (process_csv_failures
           Ref.read_csv Ref.to_datetime Ref.argsort_stable Ref.key_error_text
           ref_to_datetime_length ref_argsort_stable_contract "none.csv" 3).
  vm_compute. reflexivity.
Defined.

Lemma process_csv_data_witness :
  data Ref.march_result
  = map (fun n =>
           (rename_label COLUMNS_TO_RENAME n,
            if String.eqb n "Campaign Data 16"
            then map (fun i => Str (reformat_date_string
                                      (nth i (column_of Ref.march_table n) NaN)))
                   (index Ref.march_result)
            else map (fun i => nth i (column_of Ref.march_table n) NaN)
                   (index Ref.march_result)))
      COLUMNS_TO_KEEP.
Proof.
  apply (process_csv_data
           Ref.read_csv Ref.to_datetime Ref.argsort_stable Ref.key_error_text
           ref_to_datetime_length ref_argsort_stable_contract
           "march.csv" 3 Ref.march_table Ref.march_result);
    vm_compute; reflexivity.
Defined.

Lemma process_csv_rectangular_witness :
  length [Int 25; Int 25] = len Ref.march_result.
Proof.
  apply (process_csv_rectangular
           Ref.read_csv Ref.to_datetime Ref.argsort_stable Ref.key_error_text
           ref_to_datetime_length ref_argsort_stable_contract
           "march.csv" 3 Ref.march_result "Donation Amount");
    vm_compute; reflexivity.
Defined.

Lemma process_csv_start_dates_witness :
  exists starts,
    getitem Ref2.iso_result "Monthly Donation Start Date" = Ok starts
    /\ starts
       = map (fun i => Str (reformat_date_string (nth i Ref2.iso_dates NaN)))
           (index Ref2.iso_result)
    /\ forall p i s,
         nth_error (index Ref2.iso_result) p = Some i ->
         nth i Ref2.iso_dates NaN = Str s ->
         Py.count "/" s <> 2%nat ->
         nth_error starts p = Some (Str "").
Proof.
  apply (process_csv_start_dates
           Ref2.read_csv Ref2.to_datetime_iso Ref.argsort_stable
           Ref.key_error_text
           ref2_to_datetime_iso_length ref_argsort_stable_contract
           "iso.csv" 5 Ref2.iso_table Ref2.iso_dates Ref2.iso_result);
    vm_compute; reflexivity.
Defined.

(** Both donors of [Ref2.iso_table] are kept for May, the later row
    first, and both start dates come out empty: the dates have no
    slash. *)
Example process_csv_iso_start_dates :
  index Ref2.iso_result = [1; 0]%nat
  /\ getitem Ref2.iso_result "Monthly Donation Start Date"
     = Ok [Str ""; Str ""].
Proof. split; reflexivity. Qed.

Lemma process_csv_months_disjoint_witness : 3 = 3.
Proof.
  apply (process_csv_months_disjoint
           Ref.read_csv Ref.to_datetime Ref.argsort_stable Ref.key_error_text
           ref_to_datetime_length ref_argsort_stable_contract
           "march.csv" 3 3 Ref.march_result Ref.march_result 0%nat);
    try (vm_compute; reflexivity); cbn; tauto.
Defined.

Lemma process_csv_order_determined_witness :
  Ref.march_result = Ref2.march_result_reversing.
Proof.
  apply (process_csv_order_determined
           Ref.read_csv Ref.to_datetime Ref.argsort_stable
           Ref.argsort_reversing Ref.key_error_text
           "march.csv" 3 Ref.march_table Ref.march_dates
           (map Ref.slash_date Ref.march_dates)
           Ref.march_result Ref2.march_result_reversing
           ref_to_datetime_length ref_argsort_stable_contract
           ref_argsort_reversing_contract);
    try (vm_compute; reflexivity).
  vm_compute. repeat constructor; cbn; intuition discriminate.
Defined.

Lemma run_cli_writes_only_results_witness :
  exists added,
    trace (snd (Ref.run_cli ["main.py"; "march.csv"; "3"]%string Ref.start))
    = trace Ref.start ++ added
    /\ (length (filter is_read added) <= 1)%nat
    /\ (length (filter is_write added) <= 1)%nat
    /\ forall path df,
         In (ToCsv path df) added ->
         exists csv_file m name,
           Ref.path_exists csv_file = true /\ month_name m = Some name
           /\ process_csv Ref.read_csv Ref.to_datetime Ref.argsort_stable
                Ref.key_error_text csv_file m = Ok df
           /\ path = ("./" ++ name ++ " New EN Monthly Donors.csv")%string.
Proof.
  apply (run_cli_writes_only_results
           Ref.read_csv Ref.to_datetime Ref.argsort_stable Ref.key_error_text
           Ref.path_exists Ref.to_csv
           ["main.py"; "march.csv"; "3"]%string Ref.start
           (fst (Ref.run_cli ["main.py"; "march.csv"; "3"]%string Ref.start))).
  apply surjective_pairing.
Defined.

Lemma run_cli_only_eof_escapes_witness :
  (Raise (EOFError "EOF when reading a line") = Ok tt
   \/ (Raise (EOFError "EOF when reading a line")
       = Raise (A := unit) (EOFError "EOF when reading a line")
       /\ stdin {| stdin := [];
                   trace := [Print "CLI Mode"; Print (Py.replicate 40 "=");
                             Input "Enter CSV file path: "] |} = []))
  /\ ((3 <= length ["main.py"%string])%nat ->
      Raise (EOFError "EOF when reading a line") = Ok tt
      /\ stdin {| stdin := [];
                  trace := [Print "CLI Mode"; Print (Py.replicate 40 "=");
                            Input "Enter CSV file path: "] |}
         = stdin Ref.start).
Proof.
  apply (run_cli_only_eof_escapes
           Ref.read_csv Ref.to_datetime Ref.argsort_stable Ref.key_error_text
           Ref.path_exists Ref.to_csv ["main.py"%string] Ref.start).
  vm_compute. reflexivity.
Defined.

Lemma run_cli_success_witness :
  Ref.run_cli ["main.py"; "march.csv"; "3"]%string Ref.start
  = (Ok tt,
     {| stdin := stdin Ref.start;
        trace :=
          trace Ref.start
          ++ [Print "CLI Mode"; Print (Py.replicate 40 "=");
              PathExists "march.csv";
              Print (nl "Processing CSV file: " ++ "march.csv");
              Print ("Filtering for month: " ++ "March");
              ReadCsv "march.csv";
              ToCsv ("./" ++ "March" ++ " New EN Monthly Donors.csv")
                Ref.march_result;
              Print (nl "Success!");
              Print ("Found " ++ Py.str_int (Z.of_nat (len Ref.march_result))
                     ++ " records for " ++ "March");
              Print ("Output saved to: ./" ++ "March"
                     ++ " New EN Monthly Donors.csv")] |}).
Proof.
  apply (run_cli_success
           Ref.read_csv Ref.to_datetime Ref.argsort_stable Ref.key_error_text
           Ref.path_exists Ref.to_csv
           "main.py" "march.csv" "3" [] Ref.start 3 "March" Ref.march_result);
    vm_compute; reflexivity.
Defined.

Lemma run_cli_reports_failure_witness :
  Ref.run_cli ["main.py"; "short.csv"; "3"]%string Ref.start
  = (Ok tt,
     {| stdin := stdin Ref.start;
        trace :=
          trace Ref.start
          ++ [Print "CLI Mode"; Print (Py.replicate 40 "=");
              PathExists "short.csv";
              Print (nl "Processing CSV file: " ++ "short.csv");
              Print ("Filtering for month: " ++ "March");
              ReadCsv "short.csv";
              Print ("Error: "
                     ++ str_exn (Exception
                          "Error processing CSV: Column 'Campaign Data 16' not found in CSV file"))] |}).
Proof.
  apply (run_cli_reports_failure
           Ref.read_csv Ref.to_datetime Ref.argsort_stable Ref.key_error_text
           Ref.path_exists Ref.to_csv
           "main.py" "short.csv" "3" [] Ref.start 3 "March");
    vm_compute; reflexivity.
Defined.

Lemma save_filtered_csv_writes_month_file_witness :
  exists name,
    month_name 6 = Some name
    /\ save_filtered_csv Ref.to_csv Ref.march_result 6 "out" Ref.start
       = (match Ref.to_csv (Py.path_join "out"
                              (name ++ " New EN Monthly Donors.csv"))
                  Ref.march_result with
          | None => Ok (Py.path_join "out"
                          (name ++ " New EN Monthly Donors.csv"))
          | Some e => Raise e
          end,
          {| stdin := stdin Ref.start;
             trace := trace Ref.start
                      ++ [ToCsv (Py.path_join "out"
                                   (name ++ " New EN Monthly Donors.csv"))
                            Ref.march_result] |}).
Proof.
  apply (save_filtered_csv_writes_month_file
           Ref.to_csv Ref.march_result 6 "out" Ref.start).
  lia.
Defined.

Lemma save_filtered_csv_paths_differ_witness : 6 = 6.
Proof.
  apply (save_filtered_csv_paths_differ
           Ref.to_csv Ref.march_result Ref.march_result 6 6 "out"
           Ref.start Ref.start "out/June New EN Monthly Donors.csv"
           {| stdin := [];
              trace := [ToCsv "out/June New EN Monthly Donors.csv"
                          Ref.march_result] |}
           {| stdin := [];
              trace := [ToCsv "out/June New EN Monthly Donors.csv"
                          Ref.march_result] |});
    vm_compute; reflexivity.
Defined.

Lemma run_streamlit_app_page_witness :
  exists m name,
    Ref2.select_first
      (map (fun im => (Py.str_int (fst im) ++ " - " ++ snd im)%string)
         MONTH_NAMES)
    = (Py.str_int m ++ " - " ++ name)%string
    /\ month_name m = Some name
    /\ Ref2.run_streamlit_app (Some "march.csv"%string) Ref2.select_first []
       = (Ok tt,
          []
          ++ [st_title "EN New Sustainers by Month";
              st_write instructions;
              st_file_uploader "Choose a CSV file" "csv";
              st_selectbox "Select Month"
                (map (fun im => (Py.str_int (fst im) ++ " - " ++ snd im)%string)
                   MONTH_NAMES)]
          ++ match Some "march.csv"%string with
             | None => []
             | Some file =>
                 match process_csv Ref.read_csv Ref.to_datetime
                         Ref.argsort_stable Ref.key_error_text file m with
                 | Raise e => [st_error ("Error: " ++ str_exn e)]
                 | Ok out =>
                     st_success ("Found " ++ Py.str_int (Z.of_nat (len out))
                                 ++ " records for " ++ name)
                     :: (if (0 <? len out)%nat
                         then [st_subheader "Preview of filtered data:";
                               st_dataframe (head out);
                               st_download_button "Download Filtered CSV"
                                 (Ref2.to_csv_text out)
                                 (name ++ " New EN Monthly Donors.csv")
                                 "text/csv"]
                         else [st_warning ("No records found for " ++ name)])
                 end
             end).
Proof.
  apply (run_streamlit_app_page
           Ref.read_csv Ref.to_datetime Ref.argsort_stable Ref.key_error_text
           Ref2.to_csv_text (Some "march.csv"%string) Ref2.select_first []).
  intros [|o options] N; [contradiction | now left].
Defined.

(** The form on the export of the scenario, with the select box left at
    January: no row is of that month. *)
Example run_streamlit_app_january :
  Ref2.run_streamlit_app (Some "march.csv"%string) Ref2.select_first []
  = (Ok tt,
     [st_title "EN New Sustainers by Month";
      st_write instructions;
      st_file_uploader "Choose a CSV file" "csv";
      st_selectbox "Select Month"
        ["1 - January"; "2 - February"; "3 - March"; "4 - April"; "5 - May";
         "6 - June"; "7 - July"; "8 - August"; "9 - September";
         "10 - October"; "11 - November"; "12 - December"]%string;
      st_success "Found 0 records for January";
      st_warning "No records found for January"]).
Proof. vm_compute. reflexivity. Qed.

Lemma date_helpers_on_other_cells_witness :
  reformat_date_string NaN = EmptyString /\ parse_date_column NaN = None.
Proof.
  apply (date_helpers_on_other_cells NaN). intros s. discriminate.
Defined.

Lemma reformat_date_string_keeps_field_count_witness :
  Py.count "/" (reformat_date_string (Str "5/3/2024")) = 2%nat.
Proof.
  apply (reformat_date_string_keeps_field_count "5/3/2024"). reflexivity.
Defined.

Lemma reformat_date_string_twice_witness :
  reformat_date_string
    (Str (reformat_date_string (Str ("5" ++ "/" ++ "3" ++ "/" ++ "2024"))))
  = (Py.zfill 2 "5" ++ "/" ++ Py.zfill 2 "3" ++ "/" ++ "2024")%string.
Proof.
  apply (reformat_date_string_twice "5" "3" "2024"); reflexivity.
Defined.

End MoreInstances.
